(** * FutureCrop price prediction service (futureprediction/backend/app.py)

    A shallow embedding of the backend module and the properties of its
    dataset loader, price finder, predictor and request handler.

    Modelling conventions.
    - A Python [str] is a [string] of 8-bit characters; [str.lower],
      [str.strip] and the digit class of [strptime] are the ASCII ones, so
      the model is that of the code on ASCII text.  Statements about
      [lower] and [strip] are written through these functions; a statement
      that spells out which texts [strptime] accepts carries the hypothesis
      [ascii_text].
    - A Python [float] price is an exact rational ([Q]); [round(x, 2)] is
      rounding of the exact value to the nearest multiple of 1/100, ties to
      the even one, which is what CPython computes on the exact value of a
      double.  Infinities and NaN are outside the model, and so is the
      rounding of a product to a double: what is stated of a computed price
      is a bound, or an equality in which no product is rounded.
    - [random.gauss] and [random.random] are read from an explicit source of
      draws passed to the functions that use them.
    - [datetime.now()] is an explicit argument of the handler.
    - Exceptions are values of [exn]; a function that can raise returns
      [result]. *)

From Stdlib Require Import List String Ascii Bool Arith ZArith QArith Qround Lia Lqa.
From Stdlib Require Import Permutation.
Import ListNotations.

Open Scope string_scope.

(** ** Python strings *)

Module PyStr.

(** Truthiness of a [str]: the empty string is falsy. *)
Definition truthy (s : string) : bool :=
  match s with
  | EmptyString => false
  | String _ _ => true
  end.

Definition is_upper (c : ascii) : bool :=
  let n := nat_of_ascii c in (65 <=? n)%nat && (n <=? 90)%nat.

Definition lower_char (c : ascii) : ascii :=
  if is_upper c then ascii_of_nat (nat_of_ascii c + 32) else c.

(** [s.lower()] *)
Fixpoint lower (s : string) : string :=
  match s with
  | EmptyString => EmptyString
  | String c s' => String (lower_char c) (lower s')
  end.

(** The characters [str.strip()] removes: tab, newline, vertical tab, form
    feed, carriage return, the separators 0x1c-0x1f and the space. *)
Definition is_space (c : ascii) : bool :=
  let n := nat_of_ascii c in
  ((9 <=? n)%nat && (n <=? 13)%nat) || ((28 <=? n)%nat && (n <=? 32)%nat).

Fixpoint lstrip (s : string) : string :=
  match s with
  | EmptyString => EmptyString
  | String c s' => if is_space c then lstrip s' else s
  end.

Fixpoint rstrip (s : string) : string :=
  match s with
  | EmptyString => EmptyString
  | String c s' =>
      match rstrip s' with
      | EmptyString => if is_space c then EmptyString else String c EmptyString
      | r => String c r
      end
  end.

(** [s.strip()] *)
Definition strip (s : string) : string := rstrip (lstrip s).

Fixpoint startswith (p s : string) : bool :=
  match p, s with
  | EmptyString, _ => true
  | String a p', String b s' => Ascii.eqb a b && startswith p' s'
  | String _ _, EmptyString => false
  end.

(** [sub in s]: [sub] occurs in [s] as a contiguous substring. *)
Fixpoint contains (sub s : string) : bool :=
  startswith sub s ||
  match s with
  | EmptyString => false
  | String _ s' => contains sub s'
  end.

End PyStr.

(** ** Exceptions and results *)

Inductive exn : Type :=
| ValueError (msg : string)
| AttributeError (msg : string)
| StatisticsError (msg : string)
| IndexError (msg : string)
| HTTPException (status_code : Z) (detail : string).

Inductive result (A : Type) : Type :=
| Return (a : A)
| Raise (e : exn).

Arguments Return {A} a.
Arguments Raise {A} e.

(** ** Calendar dates: [datetime.strptime(s, "%Y-%m-%d")] *)

Record datetime : Type := mkdatetime { year : Z; month : Z; day : Z }.

Module Strptime.

Open Scope Z_scope.

Definition digit (c : ascii) : option Z :=
  let n := Z.of_nat (nat_of_ascii c) in
  if (48 <=? n) && (n <=? 57) then Some (n - 48) else None.

Definition is_leap (y : Z) : bool :=
  (y mod 4 =? 0) && (negb (y mod 100 =? 0) || (y mod 400 =? 0)).

Definition days_in_month (y m : Z) : Z :=
  if m =? 2 then (if is_leap y then 29 else 28)
  else if (m =? 4) || (m =? 6) || (m =? 9) || (m =? 11) then 30
  else 31.

(** The format ["%Y-%m-%d"] is compiled to the regular expression
    [(\d\d\d\d)-(1[0-2]|0[1-9]|[1-9])-(3[0-1]|[1-2]\d|0[1-9]|[1-9]| [1-9])],
    matched at the start of the text with backtracking over the
    alternatives, in their order. *)

(** A literal character of the format. *)
Definition match_literal (c : ascii) (s : string) : option string :=
  match s with
  | String c' rest => if Ascii.eqb c' c then Some rest else None
  | EmptyString => None
  end.

Definition one_digit (s : string) : option (Z * string) :=
  match s with
  | String a rest =>
      match digit a with
      | Some x => Some (x, rest)
      | None => None
      end
  | EmptyString => None
  end.

Definition two_digits (s : string) : option (Z * Z * string) :=
  match one_digit s with
  | Some (x, s') =>
      match one_digit s' with
      | Some (y, rest) => Some (x, y, rest)
      | None => None
      end
  | None => None
  end.

(** The group of [%Y]: exactly four digits. *)
Definition match_Y (s : string) : option (Z * string) :=
  match two_digits s with
  | Some (a, b, s') =>
      match two_digits s' with
      | Some (c, d, rest) => Some (1000 * a + 100 * b + 10 * c + d, rest)
      | None => None
      end
  | None => None
  end.

(** One alternative made of two digits that satisfy [ok]. *)
Definition alt2 (ok : Z -> Z -> bool) (s : string) : list (Z * string) :=
  match two_digits s with
  | Some (a, b, rest) => if ok a b then [(10 * a + b, rest)] else []
  | None => []
  end.

(** One alternative made of one digit from 1 to 9. *)
Definition alt1 (s : string) : list (Z * string) :=
  match one_digit s with
  | Some (a, rest) => if 1 <=? a then [(a, rest)] else []
  | None => []
  end.

(** The ways the group of [%m] matches a prefix: [1[0-2]], [0[1-9]],
    [[1-9]]. *)
Definition alts_m (s : string) : list (Z * string) :=
  (alt2 (fun a b => (a =? 1) && (b <=? 2)) s
   ++ alt2 (fun a b => (a =? 0) && (1 <=? b)) s
   ++ alt1 s)%list.

(** The ways the group of [%d] matches a prefix: [3[0-1]], [[1-2]\d],
    [0[1-9]], [[1-9]], [ [1-9]]. *)
Definition alts_d (s : string) : list (Z * string) :=
  (alt2 (fun a b => (a =? 3) && (b <=? 1)) s
   ++ alt2 (fun a b => (1 <=? a) && (a <=? 2)) s
   ++ alt2 (fun a b => (a =? 0) && (1 <=? b)) s
   ++ alt1 s
   ++ match match_literal " " s with
      | Some s' => alt1 s'
      | None => []
      end)%list.

(** The first alternative the rest of the pattern succeeds on. *)
Fixpoint first_match {A B : Type} (k : A -> option B) (alts : list A)
  : option B :=
  match alts with
  | [] => None
  | a :: alts' =>
      match k a with
      | Some b => Some b
      | None => first_match k alts'
      end
  end.

(** The part of the expression after the year and its hyphen: month,
    hyphen and day; the result carries the text left unconsumed. *)
Definition match_m_d (s1 : string) : option (Z * Z * string) :=
  first_match
    (fun ms : Z * string =>
       match match_literal "-" (snd ms) with
       | Some s3 =>
           first_match
             (fun ds : Z * string => Some (fst ms, fst ds, snd ds))
             (alts_d s3)
       | None => None
       end)
    (alts_m s1).

(** [format_regex.match(data_string)]: year, month, day and the text the
    match leaves unconsumed. *)
Definition regex_match (s : string) : option (Z * Z * Z * string) :=
  match match_Y s with
  | Some (y, s0) =>
      match match_literal "-" s0 with
      | Some s1 =>
          match match_m_d s1 with
          | Some (m, d, rest) => Some (y, m, d, rest)
          | None => None
          end
      | None => None
      end
  | None => None
  end.

(** [datetime(y, m, d)] raises for a year below [MINYEAR] = 1 and for a
    day the month does not have. *)
Definition valid_date (y m d : Z) : bool :=
  (1 <=? y) && (1 <=? m) && (m <=? 12) && (1 <=? d) && (d <=? days_in_month y m).

(** [datetime.strptime(s, "%Y-%m-%d")]; [None] stands for the
    [ValueError] raised when the text does not match the format, when
    unconverted text remains after the match, or when the date does not
    exist. *)
Definition strptime_ymd (s : string) : option datetime :=
  match regex_match s with
  | Some (y, m, d, EmptyString) =>
      if valid_date y m d then Some (mkdatetime y m d) else None
  | Some (_, _, _, String _ _) => None
  | None => None
  end.

End Strptime.

(** Comparison of two [datetime] values (all of them at midnight). *)
Definition date_ltb (a b : datetime) : bool :=
  ((year a <? year b) ||
   ((year a =? year b) &&
    ((month a <? month b) || ((month a =? month b) && (day a <? day b)))))%Z.

Definition date_leb (a b : datetime) : bool := negb (date_ltb b a).


(** ** Floats as exact rationals *)

Definition Qltb (a b : Q) : bool := negb (Qle_bool b a).

(** [max(a, b)] of Python: [b] when [b > a], else [a]. *)
Definition py_max (a b : Q) : Q := if Qltb a b then b else a.

(** Rounding of a rational to the nearest integer, ties to even. *)
Definition round_half_even (q : Q) : Z :=
  let f := Qfloor q in
  let r := q - inject_Z f in
  if Qltb r (1 # 2) then f
  else if Qltb (1 # 2) r then (f + 1)%Z
  else if Z.even f then f else (f + 1)%Z.

(** [round(x, 2)] *)
Definition round2 (x : Q) : Q := inject_Z (round_half_even (x * 100)) / 100.

(** ** The dataset: records and the CSV loader *)

Module Row.

(** A dataset record: the dict built by [load_mock_data]. *)
Record PriceRecord : Type := mk {
  state : string;
  district : string;
  market : string;
  crop : string;
  date : string;
  price : Q;
  unit : string
}.

(** [r.copy()] followed by [r["price"] = p]. *)
Definition with_price (r : PriceRecord) (p : Q) : PriceRecord :=
  mk (state r) (district r) (market r) (crop r) (date r) p (unit r).

End Row.

Abbreviation PriceRecord := Row.PriceRecord.

(** A row as [csv.DictReader] yields it: field name to value, where the
    value [None] is the reader's [restval] for a field the line is too short
    to have. *)
Definition csv_row : Type := list (string * option string).

(** [d[k] = v] *)
Fixpoint dict_set (d : csv_row) (k : string) (v : option string) : csv_row :=
  match d with
  | [] => [(k, v)]
  | (k', v') :: d' =>
      if String.eqb k' k then (k, v) :: d' else (k', v') :: dict_set d' k v
  end.

(** The value stored under [k], if the key is present. *)
Fixpoint dict_lookup (d : csv_row) (k : string) : option (option string) :=
  match d with
  | [] => None
  | (k', v) :: d' => if String.eqb k' k then Some v else dict_lookup d' k
  end.

(** [d.get(k, default)]: the stored value when the key is present (also
    when that value is [None]), else the default. *)
Definition dict_get (d : csv_row) (k : string) (default : option string)
  : option string :=
  match dict_lookup d k with
  | Some v => v
  | None => default
  end.

(** One step of [DictReader.__next__] on a non-blank line: [dict(zip(
    fieldnames, row))], then [restval = None] under every field name the
    line has no value for.  Surplus values go under the key [None], which no
    lookup of the loader reads; they are dropped here. *)
Definition DictReader_row (fieldnames row : list string) : csv_row :=
  let d := fold_left (fun d kv => dict_set d (fst kv) (Some (snd kv)))
                     (combine fieldnames row) [] in
  fold_left (fun d k => dict_set d k None)
            (skipn (List.length row) fieldnames) d.

Definition is_blank (row : list string) : bool :=
  match row with [] => true | _ :: _ => false end.

(** [csv.DictReader(f)] over the lines [csv.reader] parses from the file:
    the first line names the fields, blank lines are skipped. *)
Definition DictReader (lines : list (list string)) : list csv_row :=
  match lines with
  | [] => []
  | fieldnames :: rows =>
      map (DictReader_row fieldnames)
          (filter (fun r => negb (is_blank r)) rows)
  end.

Definition bind {A B : Type} (m : result A) (f : A -> result B) : result B :=
  match m with
  | Return a => f a
  | Raise e => Raise e
  end.

Notation "x <- m ;; k" := (bind m (fun x => k))
  (at level 61, m at next level, right associativity).

(** [v.strip()] for a value that may be [None]. *)
Definition strip_method (v : option string) : result string :=
  match v with
  | Some s => Return (PyStr.strip s)
  | None => Raise (AttributeError "'NoneType' object has no attribute 'strip'")
  end.

(** [a or b] on strings. *)
Definition str_or (a b : string) : string := if PyStr.truthy a then a else b.

Section Loader.

(** The builtin [float] applied to a string: the number it denotes, or
    [None] where Python raises [ValueError]. *)
Variable float_of_str : string -> option Q.

(** The [try]/[except] around [float(row.get("price") or 0)]. *)
Definition row_price (row : csv_row) : Q :=
  match dict_get row "price" None with
  | None => 0
  | Some s =>
      if PyStr.truthy s then
        match float_of_str s with
        | Some q => q
        | None => 0
        end
      else 0
  end.

(** The body of the loop of [load_mock_data] for one row. *)
Definition load_row (row : csv_row) : result PriceRecord :=
  let p := row_price row in
  st <- strip_method (dict_get row "state" (Some "")) ;;
  di <- strip_method (dict_get row "district" (Some "")) ;;
  ma <- strip_method (dict_get row "market" (Some "")) ;;
  cr <- strip_method (dict_get row "crop" (Some "")) ;;
  da <- strip_method (dict_get row "date" (Some "")) ;;
  un <- strip_method (dict_get row "unit" (Some "kg")) ;;
  Return (Row.mk st di ma cr da p (str_or un "kg")).

Fixpoint load_rows (rows : list csv_row) (data : list PriceRecord)
  : result (list PriceRecord) :=
  match rows with
  | [] => Return data
  | row :: rows' =>
      r <- load_row row ;;
      load_rows rows' (data ++ [r])
  end.

(** [load_mock_data(csv_path)]: [file] is [None] when the path does not
    exist, else the lines of the file as [csv.reader] splits them.  This is
    the function on a file that is opened and read without error;
    [load_mock_data_from] below has the errors of reading as well. *)
Definition load_mock_data (file : option (list (list string)))
  : result (list PriceRecord) :=
  match file with
  | None => Return []
  | Some lines => load_rows (DictReader lines) []
  end.

End Loader.

(** ** The price finder *)

(** [a.lower() == b.lower()] *)
Definition eq_lower (a b : string) : bool :=
  String.eqb (PyStr.lower a) (PyStr.lower b).

(** The inner function [matches(row)] of [find_recent_price], with the
    arguments of the enclosing call made explicit. *)
Definition matches (state district crop market : string) (row : PriceRecord)
  : bool :=
  if negb (eq_lower (Row.crop row) crop) then false
  else if PyStr.truthy state && negb (eq_lower (Row.state row) state) then false
  else if PyStr.truthy district && PyStr.truthy (Row.district row)
          && negb (eq_lower (Row.district row) district) then false
  else if PyStr.truthy market && PyStr.truthy (Row.market row)
          && negb (eq_lower (Row.market row) market) then false
  else true.

(** The candidates after the first pass and, when it finds none, after the
    relaxed pass on the crop alone. *)
Definition candidates_of (MOCK_DATA : list PriceRecord)
  (state district crop market : string) : list PriceRecord :=
  match filter (matches state district crop market) MOCK_DATA with
  | [] => filter (fun r => eq_lower (Row.crop r) crop) MOCK_DATA
  | c :: cs => c :: cs
  end.

(** The loop that pairs every candidate whose date parses with its date. *)
Fixpoint with_dates_of (candidates : list PriceRecord)
  : list (datetime * PriceRecord) :=
  match candidates with
  | [] => []
  | r :: cs =>
      match Strptime.strptime_ymd (Row.date r) with
      | Some d => (d, r) :: with_dates_of cs
      | None => with_dates_of cs
      end
  end.

(** [list.sort(key=lambda x: x[0], reverse=True)]: a stable sort, and
    stable under [reverse] too: entries with equal dates keep their order. *)
Fixpoint insert_desc (x : datetime * PriceRecord)
  (l : list (datetime * PriceRecord)) : list (datetime * PriceRecord) :=
  match l with
  | [] => [x]
  | y :: l' =>
      if date_leb (fst y) (fst x) then x :: l else y :: insert_desc x l'
  end.

Definition sort_desc (l : list (datetime * PriceRecord))
  : list (datetime * PriceRecord) :=
  fold_right insert_desc [] l.

(** [sorted(data)] on numbers. *)
Fixpoint insert_asc (x : Q) (l : list Q) : list Q :=
  match l with
  | [] => [x]
  | y :: l' => if Qle_bool x y then x :: l else y :: insert_asc x l'
  end.

Definition sorted (data : list Q) : list Q := fold_right insert_asc [] data.

(** [statistics.median(data)] *)
Definition median (data : list Q) : result Q :=
  let data := sorted data in
  let n := List.length data in
  if (n =? 0)%nat then Raise (StatisticsError "no median for empty data")
  else if (n mod 2 =? 1)%nat then Return (nth (n / 2) data 0)
  else
    let i := (n / 2)%nat in
    Return ((nth (i - 1) data 0 + nth i data 0) / 2).

(** The prices the median is taken of. *)
Definition positive_prices (candidates : list PriceRecord) : list Q :=
  map Row.price (filter (fun r => Qltb 0 (Row.price r)) candidates).

(** [find_recent_price(state, district, crop, market)] over the module's
    dataset; the Python [None] is [Return None]. *)
Definition find_recent_price (MOCK_DATA : list PriceRecord)
  (state district crop market : string) : result (option PriceRecord) :=
  match MOCK_DATA with
  | [] => Return None
  | _ :: _ =>
      match candidates_of MOCK_DATA state district crop market with
      | [] => Return None
      | c0 :: cs =>
          let candidates := c0 :: cs in
          match with_dates_of candidates with
          | (_ :: _) as with_dates =>
              match sort_desc with_dates with
              | (_, r) :: _ => Return (Some r)
              | [] => Raise (IndexError "list index out of range")
              end
          | [] =>
              match positive_prices candidates with
              | (_ :: _) as prices =>
                  med <- median prices ;;
                  Return (Some (Row.with_price c0 med))
              | [] => Return None
              end
          end
      end
  end.

(** ** The predictor *)

(** The random numbers of one request: [gauss mu sigma k] is what the
    [k]-th call of [random.gauss(mu, sigma)] returns, [random] what
    [random.random()] returns, a number in [[0, 1)]. *)
Record RandomSource : Type := mkRandom {
  gauss : Q -> Q -> nat -> Q;
  random : Q
}.

(** [random.uniform(a, b)] *)
Definition uniform (rnd : RandomSource) (a b : Q) : Q := a + (b - a) * random rnd.

Definition low_vol : list string := ["rice"; "wheat"; "maize"; "paddy"].
Definition med_vol : list string :=
  ["onion"; "tomato"; "potato"; "capsicum"; "brinjal"].
Definition high_vol : list string := ["tomato"; "onion"].

(** [any(x in c for x in words)] *)
Definition any_in (words : list string) (c : string) : bool :=
  existsb (fun x => PyStr.contains x c) words.

(** The volatility [vol] that [simple_predict] picks for a crop. *)
Definition volatility (crop : string) : Q :=
  let c := PyStr.lower crop in
  if any_in low_vol c then 2 # 100
  else if any_in med_vol c then 6 # 100
  else if any_in high_vol c then 12 # 100
  else 5 # 100.

(** The loop [for _ in range(months_ahead)]; [k] counts the draws made. *)
Fixpoint random_walk (rnd : RandomSource) (vol : Q) (steps k : nat) (price : Q)
  : Q :=
  match steps with
  | O => price
  | S steps' =>
      let change_pct := gauss rnd 0 vol k in
      random_walk rnd vol steps' (S k) (py_max (1 # 100) (price * (1 + change_pct)))
  end.

(** [simple_predict(current_price, months_ahead, crop)] *)
Definition simple_predict (rnd : RandomSource) (current_price : Q)
  (months_ahead : Z) (crop : string) : Q :=
  let vol := volatility crop in
  let price := random_walk rnd vol (Z.to_nat months_ahead) 0 current_price in
  round2 (price * (1 + (1 # 100) * inject_Z months_ahead)).

(** ** The endpoint *)

Module Req.

Record PredictRequest : Type := mk {
  state : string;
  district : option string;
  market : option string;
  crop : string;
  month : string
}.

End Req.

Module Resp.

Record PredictResponse : Type := mk {
  state : string;
  district : option string;
  market : option string;
  crop : string;
  month : string;
  unit : string;
  currentPrice : Q;
  predictedPrice : Q;
  method : string
}.

End Resp.

Abbreviation PredictRequest := Req.PredictRequest.
Abbreviation PredictResponse := Resp.PredictResponse.

(** [month_to_date(ym)] *)
Definition month_to_date (ym : string) : result datetime :=
  match Strptime.strptime_ymd (ym ++ "-01") with
  | Some d => Return d
  | None => Raise (ValueError "month must be YYYY-MM")
  end.

(** The clamped number of months from [now] to the target date. *)
Definition months_ahead_of (now target_date : datetime) : Z :=
  let months_ahead :=
    ((year target_date - year now) * 12 + (month target_date - month now))%Z in
  if (months_ahead <? 0)%Z then 0%Z else months_ahead.

(** [x or ""] for an optional field of the request. *)
Definition opt_or_empty (x : option string) : string :=
  match x with
  | Some s => s
  | None => ""
  end.

Definition base_map : list (string * Q) :=
  [("tomato", 18); ("onion", 22); ("potato", 15);
   ("rice", 30); ("wheat", 25); ("maize", 20);
   ("banana", 30); ("mango", 50)].

(** [base_map.get(k, default)] *)
Fixpoint base_map_get (m : list (string * Q)) (k : string) (default : Q) : Q :=
  match m with
  | [] => default
  | (k', v) :: m' => if String.eqb k' k then v else base_map_get m' k default
  end.

(** The current price, the unit and the method tag the handler settles on. *)
Definition current_of (rnd : RandomSource) (record : option PriceRecord)
  (crop : string) : Q * string * string :=
  match record with
  | Some r =>
      if Qltb 0 (Row.price r)
      then (Row.price r, str_or (Row.unit r) "kg", "mock-data")
      else (base_map_get base_map (PyStr.lower crop) (uniform rnd 10 40),
            "kg", "synthetic")
  | None =>
      (base_map_get base_map (PyStr.lower crop) (uniform rnd 10 40),
       "kg", "synthetic")
  end.

(** The handler of [POST /predict]. *)
Definition predict (MOCK_DATA : list PriceRecord) (rnd : RandomSource)
  (now : datetime) (req : PredictRequest) : result PredictResponse :=
  match month_to_date (Req.month req) with
  | Raise (ValueError _) =>
      Raise (HTTPException 400 "month must be in YYYY-MM format")
  | Raise e => Raise e
  | Return target_date =>
      let months_ahead := months_ahead_of now target_date in
      record <- find_recent_price MOCK_DATA (Req.state req)
                  (opt_or_empty (Req.district req)) (Req.crop req)
                  (opt_or_empty (Req.market req)) ;;
      let '(current_price, unit, method) :=
        current_of rnd record (Req.crop req) in
      let predicted_price :=
        simple_predict rnd current_price months_ahead (Req.crop req) in
      Return (Resp.mk (Req.state req) (Req.district req) (Req.market req)
                (Req.crop req) (Req.month req) unit
                (round2 current_price) (round2 predicted_price) method)
  end.

(** ** Ascending lists and medians *)

(** [ascending l]: every element is at most every later one. *)
Inductive ascending : list Q -> Prop :=
| ascending_nil : ascending []
| ascending_cons x l : Forall (fun y => x <= y) l -> ascending l -> ascending (x :: l).

(** A number is a median of a list when at least half of the elements are
    at most it and at least half are at least it. *)
Definition is_median (m : Q) (l : list Q) : Prop :=
  (List.length l <= 2 * List.length (filter (fun x => Qle_bool x m) l))%nat /\
  (List.length l <= 2 * List.length (filter (fun x => Qle_bool m x) l))%nat.

(** ** Sample data *)

Definition rice_no_date_no_price : PriceRecord :=
  Row.mk "Karnataka" "Bengaluru" "Main Market" "Rice" "" 0 "kg".

Definition three_undated : list PriceRecord :=
  [Row.mk "Kerala" "Kochi" "Main Market" "Onion" "n/a" 30 "kg";
   Row.mk "Kerala" "" "" "onion" "" 10 "quintal";
   Row.mk "Kerala" "Kochi" "" "ONION" "yesterday" 20 "kg"].

Definition rice_rows : list PriceRecord :=
  [Row.mk "Karnataka" "Mysuru" "Main Market" "Rice" "2025-01-01" 30 "kg";
   Row.mk "Karnataka" "Mysuru" "Main Market" "Rice" "2025-03-01" 32 "kg";
   Row.mk "Karnataka" "Mysuru" "Local Market" "Rice" "2025-3-1" 35 "kg";
   Row.mk "Karnataka" "Mysuru" "Main Market" "Rice" "soon" 40 "kg"].

(** A dataset whose only record carries a price below half a cent. *)
Definition half_cent_data : list PriceRecord :=
  [Row.mk "Kerala" "Kochi" "Main Market" "Rice" "2025-06-01" (4 # 1000) "kg"].

Definition no_randomness : RandomSource := mkRandom (fun _ _ _ => 0) 0.

Definition june_2025 : datetime := mkdatetime 2025 6 15.

Definition rice_request (ym : string) : PredictRequest :=
  Req.mk "Kerala" (Some "Kochi") None "Rice" ym.

(** The pure part of [load_row]: the record built from a row none of whose
    fields is [None]. *)
Definition record_of_row (float_of_str : string -> option Q) (row : csv_row)
  : PriceRecord :=
  let field k default :=
    PyStr.strip (match dict_get row k (Some default) with
                 | Some s => s
                 | None => default
                 end) in
  Row.mk (field "state" "") (field "district" "") (field "market" "")
         (field "crop" "") (field "date" "")
         (row_price float_of_str row)
         (str_or (field "unit" "kg") "kg").

(** No field of the row holds [None]. *)
Definition row_complete (row : csv_row) : Prop :=
  Forall (fun kv => snd kv <> None) row.

Definition csv_header : list string :=
  ["state"; "district"; "market"; "crop"; "date"; "price"; "unit"].

(** A file whose second line has two fields only. *)
Definition short_row_csv : list (list string) :=
  [csv_header; ["Karnataka"; "Bengaluru"]].

(** Two records are the same but for their state. *)
Definition same_but_state (r r' : PriceRecord) : Prop :=
  Row.district r = Row.district r' /\ Row.market r = Row.market r' /\
  Row.crop r = Row.crop r' /\ Row.date r = Row.date r' /\
  Row.price r = Row.price r' /\ Row.unit r = Row.unit r'.

(** ** Month strings *)

(** The format YYYY-MM read strictly: four digits, a hyphen and two digits
    that number a month from 01 to 12. *)
Definition is_YYYY_MM (s : string) : bool :=
  match s with
  | String a (String b (String c (String d (String h (String e (String f
      EmptyString)))))) =>
      match Strptime.digit a, Strptime.digit b, Strptime.digit c,
            Strptime.digit d, Strptime.digit e, Strptime.digit f with
      | Some _, Some _, Some _, Some _, Some x, Some y =>
          (Ascii.eqb h "-" && (1 <=? 10 * x + y) && (10 * x + y <=? 12))%Z
      | _, _, _, _, _, _ => false
      end
  | _ => false
  end.

(** Text made of ASCII characters only (code points below 128). *)
Fixpoint ascii_text (s : string) : bool :=
  match s with
  | EmptyString => true
  | String c s' => (nat_of_ascii c <? 128)%nat && ascii_text s'
  end.

(** The number of a month, 1 to 12, written with one digit or with two. *)
Definition month_number_text (s : string) : bool :=
  match s with
  | String e EmptyString =>
      match Strptime.digit e with
      | Some x => (1 <=? x)%Z
      | None => false
      end
  | String e (String f EmptyString) =>
      match Strptime.digit e, Strptime.digit f with
      | Some x, Some y => ((1 <=? 10 * x + y) && (10 * x + y <=? 12))%Z
      | _, _ => false
      end
  | _ => false
  end.

(** The month strings the handler accepts: four digits that are not all
    zero, a hyphen and the number of a month in one or two digits. *)
Definition accepted_month (s : string) : bool :=
  match s with
  | String a (String b (String c (String d (String h rest)))) =>
      match Strptime.digit a, Strptime.digit b, Strptime.digit c,
            Strptime.digit d with
      | Some x, Some y, Some z, Some w =>
          ((1 <=? 1000 * x + 100 * y + 10 * z + w)%Z
           && Ascii.eqb h "-" && month_number_text rest)
      | _, _, _, _ => false
      end
  | _ => false
  end.

(** ** Proof automation *)

(** Case analysis on every integer comparison in sight. *)
Ltac date_cases :=
  repeat match goal with
    | |- context [Z.ltb ?a ?b] => destruct (Z.ltb_spec a b)
    | |- context [Z.eqb ?a ?b] => destruct (Z.eqb_spec a b)
    | H : context [Z.ltb ?a ?b] |- _ => destruct (Z.ltb_spec a b)
    | H : context [Z.eqb ?a ?b] |- _ => destruct (Z.eqb_spec a b)
    end;
  simpl in *; try reflexivity; try discriminate; try lia.

(** The ten values of a digit known to lie between 0 and 9. *)
Ltac digit_values x :=
  match goal with
  | H : (0 <= x <= 9)%Z |- _ =>
      assert (x = 0 \/ x = 1 \/ x = 2 \/ x = 3 \/ x = 4 \/ x = 5 \/ x = 6 \/
              x = 7 \/ x = 8 \/ x = 9)%Z
        as [->|[->|[->|[->|[->|[->|[->|[->|[->| ->]]]]]]]]] by lia
  end.

(** Two outcomes of the handler that agree on everything but the fields
    echoed from the request. *)
Definition same_prices (a b : result PredictResponse) : Prop :=
  match a, b with
  | Return x, Return y =>
      Resp.unit x = Resp.unit y /\
      Resp.currentPrice x = Resp.currentPrice y /\
      Resp.predictedPrice x = Resp.predictedPrice y /\
      Resp.method x = Resp.method y
  | Raise e, Raise e' => e = e'
  | _, _ => False
  end.

(** The record the loader builds from a line of seven fields under the
    header [state,district,market,crop,date,price,unit]. *)
Definition record_of_line (float_of_str : string -> option Q)
  (line : list string) : PriceRecord :=
  let field i := PyStr.strip (nth i line "") in
  let p := nth 5 line "" in
  Row.mk (field 0%nat) (field 1%nat) (field 2%nat) (field 3%nat) (field 4%nat)
         (if PyStr.truthy p
          then match float_of_str p with
               | Some q => q
               | None => 0
               end
          else 0)
         (if PyStr.truthy (field 6%nat) then field 6%nat else "kg").

(** ** Reading the file *)

(** What [load_mock_data] meets when it reads the file: the path does not
    exist; [open] raises; or the file is open and [reads] lists what the
    successive calls of [next] on the csv reader give until the reader is
    exhausted, each one a line split into fields or the exception the
    reader raises there (a decoding error, a csv error), after which nothing
    more is read. *)
Inductive csv_source : Type :=
| Missing
| Unreadable (e : exn)
| Opened (reads : list (result (list string))).

(** The loop [for row in reader] over the reads that follow the header:
    [DictReader] passes blank lines over, an exception of the reader ends
    the loop, as does one of the loop body. *)
Fixpoint load_reads (float_of_str : string -> option Q)
  (fieldnames : list string) (reads : list (result (list string)))
  (data : list PriceRecord) : result (list PriceRecord) :=
  match reads with
  | [] => Return data
  | Raise e :: _ => Raise e
  | Return line :: reads' =>
      if is_blank line then load_reads float_of_str fieldnames reads' data
      else
        r <- load_row float_of_str (DictReader_row fieldnames line) ;;
        load_reads float_of_str fieldnames reads' (data ++ [r])
  end.

(** [load_mock_data(csv_path)] with the outcome of every step of reading
    made explicit; the first read gives the field names. *)
Definition load_mock_data_from (float_of_str : string -> option Q)
  (src : csv_source) : result (list PriceRecord) :=
  match src with
  | Missing => Return []
  | Unreadable e => Raise e
  | Opened [] => Return []
  | Opened (Raise e :: _) => Raise e
  | Opened (Return fieldnames :: reads) =>
      load_reads float_of_str fieldnames reads []
  end.

(** A read that gives a line the loop body accepts under the header
    [state,district,market,crop,date,price,unit]: a blank line or one of
    at least seven fields. *)
Definition good_read (rd : result (list string)) : Prop :=
  exists l, rd = Return l /\ (l = [] \/ (7 <= List.length l)%nat).

(** * Properties *)

(** ** Rational comparison and rounding *)

Lemma Qltb_lt (a b : Q) : Qltb a b = true <-> a < b.
Proof.
  unfold Qltb. rewrite negb_true_iff. split; intros H.
  - apply Qnot_le_lt. intros Hle. apply Qle_bool_iff in Hle. congruence.
  - destruct (Qle_bool b a) eqn:E; [|reflexivity].
    apply Qle_bool_iff in E. exfalso. apply (Qlt_not_le _ _ H E).
Qed.

Lemma Qltb_ge (a b : Q) : Qltb a b = false <-> b <= a.
Proof.
  unfold Qltb. rewrite negb_false_iff. apply Qle_bool_iff.
Qed.

Lemma Qltb_comp (a a' b b' : Q) : a == a' -> b == b' -> Qltb a b = Qltb a' b'.
Proof.
  intros Ha Hb. destruct (Qltb a' b') eqn:E.
  - apply Qltb_lt. apply Qltb_lt in E. rewrite Ha, Hb. exact E.
  - apply Qltb_ge. apply Qltb_ge in E. rewrite Ha, Hb. exact E.
Qed.

Lemma round_half_even_comp (a b : Q) :
  a == b -> round_half_even a = round_half_even b.
Proof.
  intros H. unfold round_half_even.
  rewrite (Qfloor_comp _ _ H).
  rewrite (Qltb_comp (a - inject_Z (Qfloor b)) (b - inject_Z (Qfloor b)) (1#2) (1#2)); [| rewrite H; reflexivity | reflexivity].
  rewrite (Qltb_comp (1#2) (1#2) (a - inject_Z (Qfloor b)) (b - inject_Z (Qfloor b))); [| reflexivity | rewrite H; reflexivity ].
  reflexivity.
Qed.

Lemma round_half_even_Z (n : Z) : round_half_even (inject_Z n) = n.
Proof.
  unfold round_half_even. rewrite Qfloor_Z.
  assert (E : Qltb (inject_Z n - inject_Z n) (1 # 2) = true).
  { apply Qltb_lt. lra. }
  rewrite E. reflexivity.
Qed.

Lemma round_half_even_floor (q : Q) :
  (Qfloor q <= round_half_even q <= Qfloor q + 1)%Z.
Proof.
  unfold round_half_even.
  destruct (Qltb _ _); [lia|]. destruct (Qltb _ _); [lia|].
  destruct (Z.even _); lia.
Qed.

Lemma round_half_even_ge (n : Z) (q : Q) :
  inject_Z n <= q -> (n <= round_half_even q)%Z.
Proof.
  intros H. apply Qfloor_resp_le in H. rewrite Qfloor_Z in H.
  pose proof (round_half_even_floor q). lia.
Qed.

Lemma round_half_even_gt_half (q : Q) :
  1 # 2 < q -> (1 <= round_half_even q)%Z.
Proof.
  intros H.
  assert (H0 : (0 <= Qfloor q)%Z).
  { rewrite <- (Qfloor_Z 0). apply Qfloor_resp_le. change (0 <= q). lra. }
  pose proof (round_half_even_floor q) as Hf.
  destruct (Z.eq_dec (Qfloor q) 0) as [E|E]; [|lia].
  unfold round_half_even. rewrite E.
  assert (E1 : Qltb (q - inject_Z 0) (1 # 2) = false).
  { apply Qltb_ge. change (inject_Z 0) with 0. lra. }
  assert (E2 : Qltb (1 # 2) (q - inject_Z 0) = true).
  { apply Qltb_lt. change (inject_Z 0) with 0. lra. }
  rewrite E1, E2. lia.
Qed.

Lemma round2_idem (x : Q) : round2 (round2 x) = round2 x.
Proof.
  unfold round2. set (n := round_half_even (x * 100)).
  assert (E : round_half_even (inject_Z n / 100 * 100) = n).
  { rewrite <- (round_half_even_Z n) at 2.
    apply round_half_even_comp. field. }
  rewrite E. reflexivity.
Qed.

Lemma round2_comp (a b : Q) : a == b -> round2 a = round2 b.
Proof.
  intros H. unfold round2.
  rewrite (round_half_even_comp (a * 100) (b * 100)); [reflexivity|].
  rewrite H. reflexivity.
Qed.

Lemma Qdiv100_le (a x : Q) : a / 100 <= x <-> a <= x * 100.
Proof.
  split; intros H.
  - assert (E : a == a / 100 * 100) by field.
    rewrite E. apply Qmult_le_compat_r; [exact H | discriminate].
  - apply Qle_shift_div_r; [reflexivity | exact H].
Qed.

Lemma round2_ge (n : Z) (x : Q) :
  inject_Z n / 100 <= x -> inject_Z n / 100 <= round2 x.
Proof.
  intros H. unfold round2. apply Qdiv100_le in H.
  apply round_half_even_ge in H.
  apply Qdiv100_le.
  assert (E : inject_Z (round_half_even (x * 100)) / 100 * 100
              == inject_Z (round_half_even (x * 100))) by field.
  rewrite E. rewrite <- Zle_Qle. exact H.
Qed.

Lemma round2_pos (x : Q) : 1 # 200 < x -> 1 # 100 <= round2 x.
Proof.
  intros H. unfold round2.
  assert (Hh : 1 # 2 < x * 100) by lra.
  apply round_half_even_gt_half in Hh.
  change (1 # 100) with (inject_Z 1 / 100).
  apply Qdiv100_le.
  assert (E : inject_Z (round_half_even (x * 100)) / 100 * 100
              == inject_Z (round_half_even (x * 100))) by field.
  rewrite E. rewrite <- Zle_Qle. exact Hh.
Qed.

(** ** Strings *)

Lemma truthy_true (s : string) : PyStr.truthy s = true <-> s <> "".
Proof. destruct s; simpl; split; intros H; congruence. Qed.

Lemma truthy_false (s : string) : PyStr.truthy s = false <-> s = "".
Proof. destruct s; simpl; split; intros H; congruence. Qed.

Lemma eq_lower_true (a b : string) :
  eq_lower a b = true <-> PyStr.lower a = PyStr.lower b.
Proof. unfold eq_lower. apply String.eqb_eq. Qed.

Lemma eq_lower_refl (a : string) : eq_lower a a = true.
Proof. apply eq_lower_true. reflexivity. Qed.

(** ** The volatility table *)




(** ** The filter of the price finder *)

Lemma matches_iff (st di cr ma : string) (r : PriceRecord) :
  matches st di cr ma r = true <->
  PyStr.lower (Row.crop r) = PyStr.lower cr /\
  (st = "" \/ PyStr.lower (Row.state r) = PyStr.lower st) /\
  (di = "" \/ Row.district r = "" \/
   PyStr.lower (Row.district r) = PyStr.lower di) /\
  (ma = "" \/ Row.market r = "" \/
   PyStr.lower (Row.market r) = PyStr.lower ma).
Proof.
  unfold matches.
  rewrite <- !eq_lower_true, <- !truthy_false.
  destruct (eq_lower (Row.crop r) cr), (PyStr.truthy st),
    (eq_lower (Row.state r) st), (PyStr.truthy di),
    (PyStr.truthy (Row.district r)), (eq_lower (Row.district r) di),
    (PyStr.truthy ma), (PyStr.truthy (Row.market r)),
    (eq_lower (Row.market r) ma); simpl; intuition congruence.
Qed.

Lemma matches_crop_only (cr : string) (r : PriceRecord) :
  matches "" "" cr "" r = eq_lower (Row.crop r) cr.
Proof.
  unfold matches. simpl. destruct (eq_lower (Row.crop r) cr); reflexivity.
Qed.

Lemma lower_empty (s : string) : PyStr.lower s = "" <-> s = "".
Proof. destruct s; simpl; split; intros H; congruence. Qed.

Lemma truthy_lower (a b : string) :
  PyStr.lower a = PyStr.lower b -> PyStr.truthy a = PyStr.truthy b.
Proof.
  intros H. destruct a, b; simpl in *; congruence.
Qed.

Lemma eq_lower_comp_r (x a b : string) :
  PyStr.lower a = PyStr.lower b -> eq_lower x a = eq_lower x b.
Proof. unfold eq_lower. intros ->. reflexivity. Qed.

(** C6: in the first pass crop and state are compared without regard to
    case (the state only when the request names one), and a district or
    market excludes a record only when the request value and the record's
    field are both non-empty. *)
Theorem matches_case_insensitive_optional_narrowing
  (st di cr ma : string) (r : PriceRecord) :
  (matches st di cr ma r = true <->
   PyStr.lower (Row.crop r) = PyStr.lower cr /\
   (st = "" \/ PyStr.lower (Row.state r) = PyStr.lower st) /\
   (di = "" \/ Row.district r = "" \/
    PyStr.lower (Row.district r) = PyStr.lower di) /\
   (ma = "" \/ Row.market r = "" \/
    PyStr.lower (Row.market r) = PyStr.lower ma))
  /\ (forall st' cr',
        PyStr.lower st' = PyStr.lower st -> PyStr.lower cr' = PyStr.lower cr ->
        matches st' di cr' ma r = matches st di cr ma r)
  /\ (Row.district r = "" -> matches st di cr ma r = matches st "" cr ma r)
  /\ (Row.market r = "" -> matches st di cr ma r = matches st di cr "" r).
Proof.
  split; [apply matches_iff|]. split; [|split].
  - intros st' cr' Hs Hc. unfold matches.
    rewrite (truthy_lower _ _ Hs), (eq_lower_comp_r _ _ _ Hs),
      (eq_lower_comp_r _ _ _ Hc).
    reflexivity.
  - intros E. unfold matches. rewrite E. simpl.
    rewrite andb_false_r. reflexivity.
  - intros E. unfold matches. rewrite E. simpl.
    rewrite andb_false_r. reflexivity.
Qed.

Lemma matches_case_insensitive_optional_narrowing_witness :
  matches "Karnataka" "Pune" "TOMATO" ""
    (Row.mk "KARNATAKA" "" "Main Market" "tomato" "2025-01-01" 20 "kg") = true.
Proof.
  pose proof (matches_case_insensitive_optional_narrowing
                "karnataka" "Pune" "tomato" ""
                (Row.mk "KARNATAKA" "" "Main Market" "tomato" "2025-01-01" 20 "kg"))
    as (_ & Hcase & Hd & _).
  rewrite (Hcase "Karnataka" "TOMATO" eq_refl eq_refl).
  rewrite (Hd eq_refl). reflexivity.
Defined.

(** ** The order on dates and the sort by date *)

Lemma date_leb_refl (a : datetime) : date_leb a a = true.
Proof.
  destruct a as [y m d]. unfold date_leb, date_ltb. simpl. date_cases.
Qed.

Lemma date_ltb_leb (a b : datetime) :
  date_ltb a b = true -> date_leb a b = true.
Proof.
  destruct a as [y m d], b as [y' m' d'].
  unfold date_leb, date_ltb. simpl. date_cases.
Qed.

Lemma date_leb_false (a b : datetime) :
  date_leb a b = false -> date_ltb b a = true.
Proof. unfold date_leb. apply negb_false_iff. Qed.

Lemma date_leb_trans (a b c : datetime) :
  date_leb a b = true -> date_leb b c = true -> date_leb a c = true.
Proof.
  destruct a as [y m d], b as [y' m' d'], c as [y'' m'' d''].
  unfold date_leb, date_ltb. simpl. date_cases.
Qed.

Lemma date_ltb_leb_trans (a b c : datetime) :
  date_ltb a b = true -> date_leb b c = true -> date_ltb a c = true.
Proof.
  destruct a as [y m d], b as [y' m' d'], c as [y'' m'' d''].
  unfold date_leb, date_ltb. simpl. date_cases.
Qed.

Lemma date_ltb_irrefl (a : datetime) : date_ltb a a = false.
Proof.
  destruct a as [y m d]. unfold date_ltb. simpl. date_cases.
Qed.

Lemma insert_desc_length x l :
  List.length (insert_desc x l) = S (List.length l).
Proof.
  induction l as [|y l IH]; simpl; [reflexivity|].
  destruct (date_leb (fst y) (fst x)); simpl; [reflexivity|].
  rewrite IH. reflexivity.
Qed.

Lemma sort_desc_length l : List.length (sort_desc l) = List.length l.
Proof.
  induction l as [|x l IH]; simpl; [reflexivity|].
  rewrite insert_desc_length, IH. reflexivity.
Qed.

(** The head of the sorted list is the first entry of the input that carries
    the latest date: everything before it is strictly earlier, everything
    after it is no later. *)
Lemma sort_desc_head (l : list (datetime * PriceRecord)) :
  l <> [] ->
  exists d r rest p1 p2,
    sort_desc l = (d, r) :: rest /\
    l = (p1 ++ (d, r) :: p2)%list /\
    Forall (fun y => date_ltb (fst y) d = true) p1 /\
    Forall (fun y => date_leb (fst y) d = true) p2.
Proof.
  induction l as [|x l IH]; [congruence|]. intros _.
  destruct l as [|x' l'].
  - destruct x as [d r]. exists d, r, [], [], []. simpl. auto.
  - destruct IH as (d & r & rest & p1 & p2 & Hs & Hl & H1 & H2); [discriminate|].
    change (sort_desc (x :: x' :: l')) with (insert_desc x (sort_desc (x' :: l'))).
    rewrite Hs. simpl.
    destruct (date_leb d (fst x)) eqn:E.
    + destruct x as [dx rx]. simpl in E.
      exists dx, rx, ((d, r) :: rest), [], (x' :: l'). simpl.
      repeat split; auto. rewrite Hl.
      apply Forall_app. split.
      * eapply Forall_impl; [|exact H1]. intros y Hy. simpl in Hy.
        apply date_ltb_leb. eapply date_ltb_leb_trans; eauto.
      * constructor; [exact E|].
        eapply Forall_impl; [|exact H2]. intros y Hy. simpl in Hy.
        eapply date_leb_trans; eauto.
    + exists d, r, (insert_desc x rest), (x :: p1), p2.
      repeat split; auto.
      * rewrite Hl. reflexivity.
      * constructor; [|exact H1]. apply date_leb_false. exact E.
Qed.

Lemma with_dates_of_split (cands : list PriceRecord) :
  forall p1 d r p2,
    with_dates_of cands = (p1 ++ (d, r) :: p2)%list ->
    exists l1 l2,
      cands = (l1 ++ r :: l2)%list /\ with_dates_of l1 = p1 /\
      with_dates_of l2 = p2 /\ Strptime.strptime_ymd (Row.date r) = Some d.
Proof.
  induction cands as [|c cs IH]; intros p1 d r p2 H.
  - destruct p1; discriminate H.
  - simpl in H. destruct (Strptime.strptime_ymd (Row.date c)) as [d0|] eqn:E.
    + destruct p1 as [|y p1'].
      * simpl in H. injection H as H0 H1 H2. subst.
        exists [], cs. simpl. auto.
      * simpl in H. injection H as H0 H1. subst y.
        destruct (IH _ _ _ _ H1) as (l1 & l2 & Hc & Hp1 & Hp2 & Hd).
        exists (c :: l1), l2. simpl. rewrite E, Hp1, Hc. auto.
    + destruct (IH _ _ _ _ H) as (l1 & l2 & Hc & Hp1 & Hp2 & Hd).
      exists (c :: l1), l2. simpl. rewrite E, Hc. auto.
Qed.

Lemma in_with_dates_of (l : list PriceRecord) (r : PriceRecord) (d : datetime) :
  In r l -> Strptime.strptime_ymd (Row.date r) = Some d ->
  In (d, r) (with_dates_of l).
Proof.
  induction l as [|c cs IH]; simpl; [tauto|].
  intros [->|Hin] Hd.
  - rewrite Hd. left. reflexivity.
  - destruct (Strptime.strptime_ymd (Row.date c)); [right|]; auto.
Qed.

Lemma with_dates_of_nil (l : list PriceRecord) :
  (forall r, In r l -> Strptime.strptime_ymd (Row.date r) = None) ->
  with_dates_of l = [].
Proof.
  induction l as [|c cs IH]; simpl; [reflexivity|]. intros H.
  rewrite (H c (or_introl eq_refl)). apply IH. intros r Hr. apply H. auto.
Qed.

Lemma find_recent_price_candidates (data : list PriceRecord)
  (st di cr ma : string) :
  find_recent_price data st di cr ma =
  match candidates_of data st di cr ma with
  | [] => Return None
  | c0 :: cs =>
      match with_dates_of (c0 :: cs) with
      | (_ :: _) as with_dates =>
          match sort_desc with_dates with
          | (_, r) :: _ => Return (Some r)
          | [] => Raise (IndexError "list index out of range")
          end
      | [] =>
          match positive_prices (c0 :: cs) with
          | (_ :: _) as prices =>
              med <- median prices ;; Return (Some (Row.with_price c0 med))
          | [] => Return None
          end
      end
  end.
Proof.
  destruct data; reflexivity.
Qed.

(** C2: when some candidate has a date that parses, the finder returns the
    candidate with the latest such date, and of several candidates with that
    date the one that comes first in the order of the dataset. *)
Theorem find_recent_price_latest_first (data : list PriceRecord)
  (st di cr ma : string) :
  (exists r0, In r0 (candidates_of data st di cr ma) /\
              Strptime.strptime_ymd (Row.date r0) <> None) ->
  exists l1 r l2 d,
    candidates_of data st di cr ma = (l1 ++ r :: l2)%list /\
    find_recent_price data st di cr ma = Return (Some r) /\
    Strptime.strptime_ymd (Row.date r) = Some d /\
    (forall r' d', In r' l1 -> Strptime.strptime_ymd (Row.date r') = Some d' ->
                   date_ltb d' d = true) /\
    (forall r' d', In r' l2 -> Strptime.strptime_ymd (Row.date r') = Some d' ->
                   date_leb d' d = true).
Proof.
  intros (r0 & Hin & Hp).
  rewrite find_recent_price_candidates.
  destruct (candidates_of data st di cr ma) as [|c0 cs] eqn:Ec; [destruct Hin|].
  destruct (Strptime.strptime_ymd (Row.date r0)) as [d0|] eqn:Ed0; [|congruence].
  pose proof (in_with_dates_of _ _ _ Hin Ed0) as Hwd.
  destruct (with_dates_of (c0 :: cs)) as [|w ws] eqn:Ew; [destruct Hwd|].
  destruct (sort_desc_head (w :: ws)) as (d & r & rest & p1 & p2 & Hs & Hl & H1 & H2);
    [discriminate|].
  rewrite Hs. rewrite Hl in Ew.
  destruct (with_dates_of_split _ _ _ _ _ Ew) as (l1 & l2 & Hc & Hp1 & Hp2 & Hd).
  exists l1, r, l2, d. repeat split; auto.
  - intros r' d' Hr' Hd'. pose proof (in_with_dates_of _ _ _ Hr' Hd') as Hi.
    rewrite Hp1 in Hi. rewrite Forall_forall in H1. apply (H1 _ Hi).
  - intros r' d' Hr' Hd'. pose proof (in_with_dates_of _ _ _ Hr' Hd') as Hi.
    rewrite Hp2 in Hi. rewrite Forall_forall in H2. apply (H2 _ Hi).
Qed.

(** ** The median *)

Lemma insert_asc_length x l :
  List.length (insert_asc x l) = S (List.length l).
Proof.
  induction l as [|y l IH]; simpl; [reflexivity|].
  destruct (Qle_bool x y); simpl; [reflexivity|].
  rewrite IH. reflexivity.
Qed.

Lemma sorted_length l : List.length (sorted l) = List.length l.
Proof.
  induction l as [|x l IH]; simpl; [reflexivity|].
  rewrite insert_asc_length, IH. reflexivity.
Qed.

Lemma insert_asc_count (p : Q -> bool) x l :
  List.length (filter p (insert_asc x l)) = List.length (filter p (x :: l)).
Proof.
  induction l as [|y l IH]; [reflexivity|].
  simpl insert_asc. destruct (Qle_bool x y); [reflexivity|].
  simpl in *. destruct (p y), (p x); simpl in *; lia.
Qed.

Lemma sorted_count (p : Q -> bool) l :
  List.length (filter p (sorted l)) = List.length (filter p l).
Proof.
  induction l as [|x l IH]; [reflexivity|].
  simpl sorted. rewrite insert_asc_count. simpl.
  destruct (p x); simpl; lia.
Qed.

Lemma insert_asc_In x y l : In y (insert_asc x l) -> y = x \/ In y l.
Proof.
  induction l as [|z l IH]; simpl.
  - intros [H|[]]; auto.
  - destruct (Qle_bool x z); simpl.
    + intros [H|[H|H]]; auto.
    + intros [H|H]; auto. destruct (IH H); auto.
Qed.

Lemma insert_asc_ascending x l : ascending l -> ascending (insert_asc x l).
Proof.
  induction 1 as [|z l Hz Hl IH]; simpl.
  - constructor; constructor.
  - destruct (Qle_bool x z) eqn:E.
    + apply Qle_bool_iff in E. constructor; [|constructor; assumption].
      constructor; [exact E|].
      eapply Forall_impl; [|exact Hz]. intros a Ha. simpl in Ha.
      eapply Qle_trans; eauto.
    + assert (Hzx : z <= x).
      { apply Qlt_le_weak, Qltb_lt. unfold Qltb. rewrite E. reflexivity. }
      constructor; [|exact IH].
      apply Forall_forall. intros a Ha.
      destruct (insert_asc_In _ _ _ Ha) as [->|Hin]; [exact Hzx|].
      rewrite Forall_forall in Hz. apply Hz. exact Hin.
Qed.

Lemma sorted_ascending l : ascending (sorted l).
Proof.
  induction l as [|x l IH]; simpl; [constructor|].
  apply insert_asc_ascending. exact IH.
Qed.

Lemma ascending_split (a b : list Q) (x : Q) :
  ascending (a ++ x :: b)%list ->
  Forall (fun y => y <= x) a /\ Forall (fun y => x <= y) b.
Proof.
  induction a as [|z a IH]; simpl; intros H; inversion H; subst.
  - split; [constructor|assumption].
  - destruct (IH H3) as [Ha Hb]. split; [|exact Hb].
    constructor; [|exact Ha].
    rewrite Forall_forall in H2. apply H2. apply in_or_app. right. left. reflexivity.
Qed.

Lemma filter_all_length (p : Q -> bool) l :
  Forall (fun y => p y = true) l -> List.length (filter p l) = List.length l.
Proof.
  induction 1 as [|y l Hy Hl IH]; simpl; [reflexivity|].
  rewrite Hy. simpl. rewrite IH. reflexivity.
Qed.

(** In an ascending list at least [k + 1] elements are at most the one at
    index [k], and all but [k] are at least that one. *)
Lemma ascending_nth_counts (s : list Q) (k : nat) :
  ascending s -> (k < List.length s)%nat ->
  (forall y, nth k s 0 <= y ->
     (k + 1 <= List.length (filter (fun x => Qle_bool x y) s))%nat) /\
  (forall y, y <= nth k s 0 ->
     (List.length s - k <= List.length (filter (fun x => Qle_bool y x) s))%nat).
Proof.
  intros Hs Hk.
  destruct (nth_split s 0 Hk) as (a & b & Hab & Hlen).
  set (m := nth k s 0) in *.
  rewrite Hab in Hs. destruct (ascending_split _ _ _ Hs) as [Ha Hb].
  split; intros y Hy; rewrite Hab, filter_app, !length_app; simpl.
  - assert (E : Qle_bool m y = true) by (apply Qle_bool_iff; exact Hy).
    rewrite E. simpl.
    rewrite (filter_all_length (fun x => Qle_bool x y) a).
    + lia.
    + eapply Forall_impl; [|exact Ha]. intros z Hz. simpl in Hz.
      apply Qle_bool_iff. eapply Qle_trans; eauto.
  - assert (E : Qle_bool y m = true) by (apply Qle_bool_iff; exact Hy).
    rewrite E. simpl.
    rewrite (filter_all_length (fun x => Qle_bool y x) b).
    + lia.
    + eapply Forall_impl; [|exact Hb]. intros z Hz. simpl in Hz.
      apply Qle_bool_iff. eapply Qle_trans; eauto.
Qed.

Lemma ascending_nth_le (s : list Q) (i j : nat) :
  ascending s -> (i <= j)%nat -> (j < List.length s)%nat ->
  nth i s 0 <= nth j s 0.
Proof.
  intros Hs Hij Hj.
  destruct (Nat.eq_dec i j) as [->|Hne]; [apply Qle_refl|].
  destruct (nth_split s 0 Hj) as (a & b & Hab & Hlen).
  set (m := nth j s 0) in *.
  rewrite Hab in Hs. destruct (ascending_split _ _ _ Hs) as [Ha _].
  rewrite Hab. rewrite app_nth1 by lia.
  rewrite Forall_forall in Ha. apply Ha. apply nth_In. lia.
Qed.

Lemma median_is_median (l : list Q) :
  l <> [] -> exists m, median l = Return m /\ is_median m l.
Proof.
  intros Hl. unfold median, is_median.
  pose proof (sorted_length l) as Hlen.
  pose proof (sorted_ascending l) as Hasc.
  set (s := sorted l) in *. set (n := List.length s) in *.
  assert (Hn : (0 < n)%nat).
  { destruct l; [congruence|]. rewrite Hlen. simpl. lia. }
  destruct (Nat.eqb_spec n 0) as [E0|_]; [lia|].
  pose proof (Nat.div_mod_eq n 2) as Hdm.
  pose proof (Nat.mod_upper_bound n 2 ltac:(lia)) as Hmod.
  destruct (Nat.eqb_spec (n mod 2) 1) as [E1|E1].
  - eexists. split; [reflexivity|].
    rewrite <- !(sorted_count _ l). fold s. rewrite <- Hlen.
    destruct (ascending_nth_counts s (n / 2) Hasc ltac:(lia)) as [H1 H2].
    specialize (H1 _ (Qle_refl _)). specialize (H2 _ (Qle_refl _)).
    fold n in H2. lia.
  - eexists. split; [reflexivity|].
    rewrite <- !(sorted_count _ l). fold s. rewrite <- Hlen.
    set (i := (n / 2)%nat) in *.
    assert (Hi : (1 <= i)%nat) by lia.
    pose proof (ascending_nth_le s (i - 1) i Hasc ltac:(lia) ltac:(lia)) as Hab.
    destruct (ascending_nth_counts s (i - 1) Hasc ltac:(lia)) as [H1 _].
    destruct (ascending_nth_counts s i Hasc ltac:(lia)) as [_ H2].
    set (a := nth (i - 1) s 0) in *. set (b := nth i s 0) in *.
    assert (Ha : a <= (a + b) / 2).
    { apply Qle_shift_div_l; [reflexivity|]. lra. }
    assert (Hb : (a + b) / 2 <= b).
    { apply Qle_shift_div_r; [reflexivity|]. lra. }
    specialize (H1 _ Ha). specialize (H2 _ Hb). fold n in H2. lia.
Qed.

(** ** The fallbacks of the price finder *)

Lemma positive_prices_In (l : list PriceRecord) (r : PriceRecord) :
  In r l -> 0 < Row.price r -> In (Row.price r) (positive_prices l).
Proof.
  intros Hin Hp. unfold positive_prices. apply in_map. apply filter_In.
  split; [exact Hin|]. apply Qltb_lt. exact Hp.
Qed.

Lemma positive_prices_nil (l : list PriceRecord) :
  (forall r, In r l -> ~ 0 < Row.price r) -> positive_prices l = [].
Proof.
  intros H. unfold positive_prices.
  induction l as [|c cs IH]; [reflexivity|]. simpl.
  destruct (Qltb 0 (Row.price c)) eqn:E.
  - apply Qltb_lt in E. exfalso. apply (H c); simpl; auto.
  - apply IH. intros r Hr. apply H. simpl. auto.
Qed.



Lemma candidates_of_relaxed (data : list PriceRecord) (st di cr ma : string) :
  filter (matches st di cr ma) data = [] ->
  candidates_of data st di cr ma = filter (fun r => eq_lower (Row.crop r) cr) data.
Proof. unfold candidates_of. intros ->. reflexivity. Qed.

Lemma candidates_of_crop_only (data : list PriceRecord) (cr : string) :
  candidates_of data "" "" cr "" = filter (fun r => eq_lower (Row.crop r) cr) data.
Proof.
  unfold candidates_of.
  rewrite (filter_ext _ _ (matches_crop_only cr)).
  destruct (filter _ data); reflexivity.
Qed.

Lemma sort_desc_nonempty (l : list (datetime * PriceRecord)) :
  l <> [] -> exists d r rest, sort_desc l = (d, r) :: rest.
Proof.
  intros H. destruct (sort_desc_head l H) as (d & r & rest & _ & _ & Hs & _).
  eauto.
Qed.

(** C5 (amended): when the first pass finds no candidate the finder falls
    back to all records of the crop, whatever their state, district and
    market, and then returns a record as soon as one of these has a date that
    parses or a positive price. *)
Theorem find_recent_price_relaxes_to_crop (data : list PriceRecord)
  (st di cr ma : string) :
  filter (matches st di cr ma) data = [] ->
  candidates_of data st di cr ma
    = filter (fun r => String.eqb (PyStr.lower (Row.crop r)) (PyStr.lower cr)) data
  /\ find_recent_price data st di cr ma = find_recent_price data "" "" cr ""
  /\ ((exists r, In r data /\ PyStr.lower (Row.crop r) = PyStr.lower cr /\
                 (Strptime.strptime_ymd (Row.date r) <> None \/ 0 < Row.price r)) ->
      exists rec, find_recent_price data st di cr ma = Return (Some rec)).
Proof.
  intros Hnone. pose proof (candidates_of_relaxed _ _ _ _ _ Hnone) as Hc.
  split; [exact Hc|]. split.
  - rewrite !find_recent_price_candidates, Hc, candidates_of_crop_only.
    reflexivity.
  - intros (r & Hin & Hcrop & Hsel).
    assert (Hcand : In r (candidates_of data st di cr ma)).
    { rewrite Hc. apply filter_In. split; [exact Hin|].
      apply eq_lower_true. exact Hcrop. }
    rewrite find_recent_price_candidates.
    destruct (candidates_of data st di cr ma) as [|c0 cs]; [destruct Hcand|].
    destruct (with_dates_of (c0 :: cs)) as [|w ws] eqn:Ew.
    + destruct Hsel as [Hd|Hp].
      * destruct (Strptime.strptime_ymd (Row.date r)) as [d|] eqn:Ed; [|congruence].
        pose proof (in_with_dates_of _ _ _ Hcand Ed) as Hi.
        rewrite Ew in Hi. destruct Hi.
      * pose proof (positive_prices_In _ _ Hcand Hp) as Hi.
        destruct (positive_prices (c0 :: cs)) as [|p ps] eqn:Ep; [destruct Hi|].
        destruct (median_is_median (p :: ps)) as (med & Hm & _); [discriminate|].
        rewrite Hm. simpl. eauto.
    + destruct (sort_desc_nonempty (w :: ws)) as (d & r' & rest & Hs);
        [discriminate|].
      rewrite Hs. eauto.
Qed.

Lemma find_recent_price_relaxes_to_crop_witness :
  exists rec,
    find_recent_price
      [Row.mk "Karnataka" "Bengaluru" "Main Market" "Rice" "2025-03-01" 32 "kg"]
      "Kerala" "Kochi" "rice" "Local Market" = Return (Some rec).
Proof.
  apply (find_recent_price_relaxes_to_crop
           [Row.mk "Karnataka" "Bengaluru" "Main Market" "Rice" "2025-03-01" 32 "kg"]
           "Kerala" "Kochi" "rice" "Local Market").
  - reflexivity.
  - eexists. split; [left; reflexivity|]. split; [reflexivity|].
    left. discriminate.
Defined.

(** C5 as stated fails: no record matches the state, one matches the crop,
    yet the finder returns nothing, because that record has neither a date
    that parses nor a positive price. *)
Lemma relaxed_pass_may_return_none :
  filter (matches "Kerala" "" "Rice" "") [rice_no_date_no_price] = [] /\
  (exists r, In r [rice_no_date_no_price] /\
             PyStr.lower (Row.crop r) = PyStr.lower "Rice") /\
  find_recent_price [rice_no_date_no_price] "Kerala" "" "Rice" "" = Return None.
Proof.
  split; [reflexivity|]. split; [|reflexivity].
  exists rice_no_date_no_price. split; [left; reflexivity | reflexivity].
Qed.

Lemma find_recent_price_latest_first_witness :
  exists l1 r l2 d,
    candidates_of rice_rows "Karnataka" "" "rice" "" = (l1 ++ r :: l2)%list /\
    find_recent_price rice_rows "Karnataka" "" "rice" "" = Return (Some r) /\
    Strptime.strptime_ymd (Row.date r) = Some d /\
    (forall r' d', In r' l1 -> Strptime.strptime_ymd (Row.date r') = Some d' ->
                   date_ltb d' d = true) /\
    (forall r' d', In r' l2 -> Strptime.strptime_ymd (Row.date r') = Some d' ->
                   date_leb d' d = true).
Proof.
  apply (find_recent_price_latest_first rice_rows "Karnataka" "" "rice" "").
  eexists. split; [left; reflexivity|]. vm_compute. discriminate.
Defined.

Example find_recent_price_rice_rows :
  find_recent_price rice_rows "Karnataka" "" "rice" ""
  = Return (Some (Row.mk "Karnataka" "Mysuru" "Main Market" "Rice"
                         "2025-03-01" 32 "kg")).
Proof. reflexivity. Qed.

(** ** The random walk and the bias *)

Lemma round2_mono_floor (x : Q) : 1 # 100 <= x -> 1 # 100 <= round2 x.
Proof. intros H. apply round2_pos. lra. Qed.

Lemma round2_nonneg (x : Q) : 0 <= x -> 0 <= round2 x.
Proof.
  intros H. apply Qle_trans with (inject_Z 0 / 100); [discriminate|].
  apply round2_ge. apply Qle_trans with 0; [discriminate | exact H].
Qed.

Lemma round2_ge_10 (x : Q) : 10 <= x -> 10 <= round2 x.
Proof.
  intros H. apply Qle_trans with (inject_Z 1000 / 100); [discriminate|].
  apply round2_ge. change (inject_Z 1000 / 100) with (1000 # 100). lra.
Qed.

Lemma py_max_floor (x : Q) : 1 # 100 <= py_max (1 # 100) x.
Proof.
  unfold py_max. destruct (Qltb (1 # 100) x) eqn:E.
  - apply Qlt_le_weak, Qltb_lt. exact E.
  - apply Qle_refl.
Qed.

Lemma random_walk_keeps_floor (rnd : RandomSource) (vol : Q) (steps : nat) :
  forall k p, 1 # 100 <= p -> 1 # 100 <= random_walk rnd vol steps k p.
Proof.
  induction steps as [|n IH]; intros k p Hp; simpl; [exact Hp|].
  apply IH. apply py_max_floor.
Qed.

Lemma random_walk_floor (rnd : RandomSource) (vol : Q) (steps k : nat) (p : Q) :
  (0 < steps)%nat -> 1 # 100 <= random_walk rnd vol steps k p.
Proof.
  destruct steps as [|n]; [lia|]. intros _. simpl.
  apply random_walk_keeps_floor. apply py_max_floor.
Qed.

Lemma bias_ge (w : Q) (m : Z) (b : Q) :
  (0 <= m)%Z -> 0 <= b -> b <= w -> b <= w * (1 + (1 # 100) * inject_Z m).
Proof.
  intros Hm Hb Hw.
  assert (Hi : 0 <= inject_Z m).
  { change 0 with (inject_Z 0). rewrite <- Zle_Qle. exact Hm. }
  assert (Hw0 : 0 <= w) by lra.
  assert (Hprod : 0 <= w * ((1 # 100) * inject_Z m)).
  { apply Qmult_le_0_compat; [exact Hw0|].
    apply Qmult_le_0_compat; [discriminate | exact Hi]. }
  assert (E : w * (1 + (1 # 100) * inject_Z m)
              == w + w * ((1 # 100) * inject_Z m)) by ring.
  rewrite E. lra.
Qed.

Lemma simple_predict_zero_months (rnd : RandomSource) (p : Q) (crop : string) :
  simple_predict rnd p 0 crop = round2 p.
Proof.
  unfold simple_predict. simpl. apply round2_comp.
  change (inject_Z 0) with 0. ring.
Qed.

Lemma simple_predict_floor (rnd : RandomSource) (p : Q) (m : Z) (crop : string) :
  (1 <= m)%Z -> 1 # 100 <= simple_predict rnd p m crop.
Proof.
  intros Hm. unfold simple_predict.
  change (1 # 100) with (inject_Z 1 / 100). apply round2_ge.
  change (inject_Z 1 / 100) with (1 # 100).
  apply bias_ge; [lia | discriminate |].
  apply random_walk_floor. lia.
Qed.

Lemma simple_predict_nonneg (rnd : RandomSource) (p : Q) (m : Z) (crop : string) :
  (0 <= m)%Z -> 0 <= p -> 0 <= simple_predict rnd p m crop.
Proof.
  intros Hm Hp. destruct (Z.eq_dec m 0) as [->|Hne].
  - rewrite simple_predict_zero_months. apply round2_nonneg. exact Hp.
  - apply Qle_trans with (1 # 100); [discriminate|].
    apply simple_predict_floor. lia.
Qed.

Lemma simple_predict_pos (rnd : RandomSource) (p : Q) (m : Z) (crop : string) :
  (0 <= m)%Z -> 1 # 200 < p -> 1 # 100 <= simple_predict rnd p m crop.
Proof.
  intros Hm Hp. destruct (Z.eq_dec m 0) as [->|Hne].
  - rewrite simple_predict_zero_months. apply round2_pos. exact Hp.
  - apply simple_predict_floor. lia.
Qed.

(** ** The current price *)

Lemma uniform_10_40 (rnd : RandomSource) :
  0 <= random rnd < 1 -> 10 <= uniform rnd 10 40 < 40.
Proof. unfold uniform. intros [H0 H1]. split; lra. Qed.

Lemma base_map_get_ge_10 (k : string) (default : Q) :
  10 <= default -> 10 <= base_map_get base_map k default.
Proof.
  intros Hd. unfold base_map. cbn [base_map_get].
  repeat match goal with
         | |- context [String.eqb ?a ?b] => destruct (String.eqb a b)
         end; try exact Hd; discriminate.
Qed.

Lemma months_ahead_of_nonneg (now target : datetime) :
  (0 <= months_ahead_of now target)%Z.
Proof.
  unfold months_ahead_of.
  destruct (Z.ltb_spec ((year target - year now) * 12 + (month target - month now)) 0);
    lia.
Qed.

Lemma current_of_cases (rnd : RandomSource) (record : option PriceRecord)
  (crop : string) :
  (exists r, record = Some r /\ 0 < Row.price r /\
             current_of rnd record crop
             = (Row.price r, str_or (Row.unit r) "kg", "mock-data"))
  \/ current_of rnd record crop
     = (base_map_get base_map (PyStr.lower crop) (uniform rnd 10 40),
        "kg", "synthetic").
Proof.
  destruct record as [r|]; simpl; [|right; reflexivity].
  destruct (Qltb 0 (Row.price r)) eqn:E; [|right; reflexivity].
  left. exists r. apply Qltb_lt in E. auto.
Qed.

(** Every response comes from a month that parsed, a lookup that returned
    and the fields the handler assembles. *)
Lemma predict_Return (data : list PriceRecord) (rnd : RandomSource)
  (now : datetime) (req : PredictRequest) (resp : PredictResponse) :
  predict data rnd now req = Return resp ->
  exists target record,
    month_to_date (Req.month req) = Return target /\
    find_recent_price data (Req.state req) (opt_or_empty (Req.district req))
      (Req.crop req) (opt_or_empty (Req.market req)) = Return record /\
    let c := current_of rnd record (Req.crop req) in
    resp = Resp.mk (Req.state req) (Req.district req) (Req.market req)
             (Req.crop req) (Req.month req) (snd (fst c))
             (round2 (fst (fst c)))
             (round2 (simple_predict rnd (fst (fst c))
                        (months_ahead_of now target) (Req.crop req)))
             (snd c).
Proof.
  unfold predict. intros H.
  destruct (month_to_date (Req.month req)) as [target|e] eqn:Em.
  - destruct (find_recent_price data _ _ _ _) as [record|e] eqn:Ef;
      simpl in H; [|discriminate].
    exists target, record. split; [reflexivity|]. split; [reflexivity|].
    destruct (current_of rnd record (Req.crop req)) as [[cp u] me].
    simpl. congruence.
  - destruct e; discriminate.
Qed.

Lemma strptime_ymd_valid (s : string) (d : datetime) :
  Strptime.strptime_ymd s = Some d ->
  Strptime.valid_date (year d) (month d) (day d) = true.
Proof.
  unfold Strptime.strptime_ymd.
  destruct (Strptime.regex_match s) as [[[[y m] dd] rest]|]; [|discriminate].
  destruct rest; [|discriminate].
  destruct (Strptime.valid_date y m dd) eqn:E; [|discriminate].
  intros H. injection H as <-. exact E.
Qed.

Lemma month_to_date_month (ym : string) (target : datetime) :
  month_to_date ym = Return target -> (1 <= month target <= 12)%Z.
Proof.
  unfold month_to_date.
  destruct (Strptime.strptime_ymd (ym ++ "-01")) as [d|] eqn:E; [|discriminate].
  intros H. injection H as <-. apply strptime_ymd_valid in E.
  unfold Strptime.valid_date in E.
  rewrite !andb_true_iff, !Z.leb_le in E. lia.
Qed.

Lemma round_half_even_small (q : Q) :
  0 <= q -> q < 1 # 2 -> round_half_even q = 0%Z.
Proof.
  intros H0 Hh.
  assert (Hlo : (0 <= Qfloor q)%Z).
  { rewrite <- (Qfloor_Z 0). apply Qfloor_resp_le. exact H0. }
  assert (Hhi : (Qfloor q < 1)%Z).
  { rewrite Zlt_Qlt. apply Qle_lt_trans with q; [apply Qfloor_le|].
    apply Qlt_trans with (1 # 2); [exact Hh | reflexivity]. }
  assert (E : Qfloor q = 0%Z) by lia.
  unfold round_half_even. rewrite E.
  assert (E1 : Qltb (q - inject_Z 0) (1 # 2) = true).
  { apply Qltb_lt. change (inject_Z 0) with 0. lra. }
  rewrite E1. reflexivity.
Qed.

Lemma round2_small (x : Q) : 0 <= x -> x < 1 # 200 -> round2 x == 0.
Proof.
  intros H0 Hh. unfold round2.
  rewrite (round_half_even_small (x * 100)) by lra. reflexivity.
Qed.

(** C1 (amended): the two prices of a response are never negative; they are
    at least 0.01 whenever the price found in the dataset exceeds half a
    cent and whenever the synthetic price is used, and the predicted price
    is at least 0.01 whenever the target month lies ahead.  A price found in
    the dataset that is positive and below half a cent is reported as the
    current price 0.00, and as the predicted price 0.00 too when no month
    lies ahead. *)
Theorem predict_prices_nonnegative (data : list PriceRecord)
  (rnd : RandomSource) (now : datetime) (req : PredictRequest)
  (resp : PredictResponse) :
  0 <= random rnd < 1 ->
  predict data rnd now req = Return resp ->
  0 <= Resp.currentPrice resp /\ 0 <= Resp.predictedPrice resp /\
  (Resp.method resp = "synthetic" ->
   10 <= Resp.currentPrice resp /\ 1 # 100 <= Resp.predictedPrice resp) /\
  (forall target, month_to_date (Req.month req) = Return target ->
                  (1 <= months_ahead_of now target)%Z ->
                  1 # 100 <= Resp.predictedPrice resp) /\
  (forall r, find_recent_price data (Req.state req)
               (opt_or_empty (Req.district req)) (Req.crop req)
               (opt_or_empty (Req.market req)) = Return (Some r) ->
             1 # 200 < Row.price r ->
             1 # 100 <= Resp.currentPrice resp /\
             1 # 100 <= Resp.predictedPrice resp) /\
  (forall r, find_recent_price data (Req.state req)
               (opt_or_empty (Req.district req)) (Req.crop req)
               (opt_or_empty (Req.market req)) = Return (Some r) ->
             0 < Row.price r -> Row.price r < 1 # 200 ->
             Resp.method resp = "mock-data" /\
             Resp.currentPrice resp == 0 /\
             (forall target, month_to_date (Req.month req) = Return target ->
                             months_ahead_of now target = 0%Z ->
                             Resp.predictedPrice resp == 0)).
Proof.
  intros Hrnd H.
  destruct (predict_Return _ _ _ _ _ H) as (target & record & Hm & Hf & Hresp).
  cbv zeta in Hresp. subst resp. simpl.
  pose proof (months_ahead_of_nonneg now target) as Hma.
  assert (Hu : 10 <= uniform rnd 10 40) by (apply uniform_10_40; exact Hrnd).
  pose proof (base_map_get_ge_10 (PyStr.lower (Req.crop req)) _ Hu) as Hb.
  destruct (current_of_cases rnd record (Req.crop req))
    as [(r0 & Hr0 & Hpos & Hc)|Hc]; rewrite Hc; simpl.
  - assert (H0 : 0 <= Row.price r0) by lra.
    split; [apply round2_nonneg; exact H0|].
    split; [apply round2_nonneg, simple_predict_nonneg; assumption|].
    split; [discriminate|]. split; [|split].
    + intros t Ht Hone. rewrite Hm in Ht. injection Ht as <-.
      apply round2_mono_floor, simple_predict_floor. exact Hone.
    + intros r Hr Hhalf. rewrite Hf in Hr. injection Hr as Hr.
      rewrite Hr0 in Hr. injection Hr as <-.
      split; [apply round2_pos; exact Hhalf|].
      apply round2_mono_floor, simple_predict_pos; assumption.
    + intros r Hr Hp Hhalf. rewrite Hf in Hr. injection Hr as Hr.
      rewrite Hr0 in Hr. injection Hr as <-.
      split; [reflexivity|].
      split; [apply round2_small; [exact H0 | exact Hhalf]|].
      intros t Ht Hz. rewrite Hm in Ht. injection Ht as <-.
      rewrite Hz, simple_predict_zero_months, round2_idem.
      apply round2_small; [exact H0 | exact Hhalf].
  - set (cp := base_map_get base_map (PyStr.lower (Req.crop req)) (uniform rnd 10 40)) in *.
    assert (Hcp : 1 # 200 < cp) by lra.
    assert (Hpp : 1 # 100 <= round2 (simple_predict rnd cp (months_ahead_of now target) (Req.crop req))).
    { apply round2_mono_floor, simple_predict_pos; assumption. }
    assert (Hc10 : 10 <= round2 cp) by (apply round2_ge_10; exact Hb).
    split; [apply Qle_trans with 10; [discriminate | exact Hc10]|].
    split; [apply Qle_trans with (1 # 100); [discriminate | exact Hpp]|].
    split; [auto|]. split; [auto|]. split.
    + intros r Hr Hhalf. split; [|exact Hpp].
      apply Qle_trans with 10; [discriminate | exact Hc10].
    + intros r Hr Hp Hhalf. exfalso.
      rewrite Hf in Hr. injection Hr as ->.
      unfold current_of in Hc. apply Qltb_lt in Hp. rewrite Hp in Hc.
      discriminate Hc.
Qed.

Lemma predict_prices_nonnegative_witness :
  exists resp,
    predict [] no_randomness june_2025 (rice_request "2025-09") = Return resp /\
    10 <= Resp.currentPrice resp /\ 1 # 100 <= Resp.predictedPrice resp.
Proof.
  eexists. split; [reflexivity|].
  refine ((fun H => proj1 (proj2 (proj2 H)) eq_refl)
            (predict_prices_nonnegative [] no_randomness june_2025
               (rice_request "2025-09") _ _ eq_refl)).
  split; [discriminate | reflexivity].
Defined.

(** C1 as stated fails: a dataset price below half a cent passes the test
    [price > 0] and is then rounded to 0.00 in the response. *)
Lemma predict_rounds_small_price_to_zero :
  exists resp,
    predict half_cent_data no_randomness june_2025 (rice_request "2025-06")
      = Return resp /\
    Resp.method resp = "mock-data" /\
    ~ 0 < Resp.currentPrice resp /\ ~ 0 < Resp.predictedPrice resp.
Proof.
  eexists. split; [reflexivity|]. split; [reflexivity|].
  split; intros H; discriminate H.
Qed.

(** C4: with no month ahead the predictor returns the current price rounded
    to two places, and a request for the current month or an earlier one gets
    a predicted price equal to its current price. *)
Theorem predict_past_month_keeps_price :
  (forall (rnd : RandomSource) (vol : Q) (k : nat) (p : Q),
      random_walk rnd vol (Z.to_nat 0) k p = p) /\
  (forall (rnd : RandomSource) (p : Q) (crop : string),
      simple_predict rnd p 0 crop = round2 p) /\
  forall (data : list PriceRecord) (rnd : RandomSource) (now : datetime)
         (req : PredictRequest) (target : datetime) (resp : PredictResponse),
    (1 <= month now <= 12)%Z ->
    month_to_date (Req.month req) = Return target ->
    (year target < year now \/
     (year target = year now /\ month target <= month now))%Z ->
    predict data rnd now req = Return resp ->
    months_ahead_of now target = 0%Z /\
    Resp.predictedPrice resp = Resp.currentPrice resp.
Proof.
  split; [reflexivity|]. split; [apply simple_predict_zero_months|].
  intros data rnd now req target resp Hnow Hm Hle H.
  pose proof (month_to_date_month _ _ Hm) as Ht.
  assert (Hz : months_ahead_of now target = 0%Z).
  { unfold months_ahead_of.
    destruct (Z.ltb_spec ((year target - year now) * 12 + (month target - month now)) 0);
      lia. }
  split; [exact Hz|].
  destruct (predict_Return _ _ _ _ _ H) as (target' & record & Hm' & Hf & Hresp).
  rewrite Hm in Hm'. injection Hm' as <-.
  cbv zeta in Hresp. subst resp. simpl.
  rewrite Hz, simple_predict_zero_months. apply round2_idem.
Qed.

Lemma predict_past_month_keeps_price_witness :
  exists resp,
    predict rice_rows no_randomness june_2025
      (Req.mk "Karnataka" None None "Rice" "2024-11") = Return resp /\
    Resp.predictedPrice resp = Resp.currentPrice resp.
Proof.
  eexists. split; [reflexivity|].
  refine (proj2 (proj2 (proj2 predict_past_month_keeps_price) rice_rows no_randomness
                   june_2025 (Req.mk "Karnataka" None None "Rice" "2024-11")
                   (mkdatetime 2024 11 1) _ _ eq_refl _ eq_refl)).
  - simpl. lia.
  - left. simpl. lia.
Defined.

(** ** The dataset loader *)

Lemma dict_set_complete (d : csv_row) (k v : string) :
  row_complete d -> row_complete (dict_set d k (Some v)).
Proof.
  unfold row_complete. induction 1 as [|[k' v'] d Hkv Hd IH]; simpl.
  - constructor; [discriminate | constructor].
  - destruct (String.eqb k' k).
    + constructor; [discriminate | exact Hd].
    + constructor; [exact Hkv | exact IH].
Qed.

Lemma DictReader_row_complete (fieldnames row : list string) :
  (List.length fieldnames <= List.length row)%nat ->
  row_complete (DictReader_row fieldnames row).
Proof.
  intros Hlen. unfold DictReader_row.
  rewrite skipn_all2 by exact Hlen. simpl.
  assert (H : forall kvs d, row_complete d ->
            row_complete (fold_left (fun d kv => dict_set d (fst kv) (Some (snd kv)))
                                    kvs d)).
  { induction kvs as [|kv kvs IH]; intros d Hd; simpl; [exact Hd|].
    apply IH. apply dict_set_complete. exact Hd. }
  apply H. constructor.
Qed.

Lemma dict_get_complete (row : csv_row) (k default : string) :
  row_complete row -> exists s, dict_get row k (Some default) = Some s.
Proof.
  unfold dict_get, row_complete.
  induction 1 as [|[k' v'] d Hkv Hd IH]; simpl; [eauto|].
  destruct (String.eqb k' k); [|exact IH].
  destruct v' as [s|]; [eauto | simpl in Hkv; congruence].
Qed.

Lemma load_row_complete (float_of_str : string -> option Q) (row : csv_row) :
  row_complete row ->
  load_row float_of_str row = Return (record_of_row float_of_str row).
Proof.
  intros Hc. unfold load_row, record_of_row.
  destruct (dict_get_complete row "state" "" Hc) as [s1 ->].
  destruct (dict_get_complete row "district" "" Hc) as [s2 ->].
  destruct (dict_get_complete row "market" "" Hc) as [s3 ->].
  destruct (dict_get_complete row "crop" "" Hc) as [s4 ->].
  destruct (dict_get_complete row "date" "" Hc) as [s5 ->].
  destruct (dict_get_complete row "unit" "kg" Hc) as [s6 ->].
  reflexivity.
Qed.

Lemma load_rows_complete (float_of_str : string -> option Q)
  (rows : list csv_row) :
  Forall row_complete rows ->
  forall data,
    load_rows float_of_str rows data
    = Return (data ++ map (record_of_row float_of_str) rows)%list.
Proof.
  induction 1 as [|row rows Hrow Hrows IH]; intros data; simpl.
  - rewrite app_nil_r. reflexivity.
  - rewrite (load_row_complete _ _ Hrow). simpl. rewrite IH, <- app_assoc.
    reflexivity.
Qed.

(** What the loader does do: a missing file gives the empty dataset, and a
    file none of whose lines is shorter than its header gives one record per
    non-blank line, whatever the price field holds. *)
Lemma load_mock_data_tolerant (float_of_str : string -> option Q) :
  load_mock_data float_of_str None = Return [] /\
  forall fieldnames lines,
    Forall (fun l => l = [] \/ (List.length fieldnames <= List.length l)%nat) lines ->
    load_mock_data float_of_str (Some (fieldnames :: lines))
    = Return (map (record_of_row float_of_str)
                  (DictReader (fieldnames :: lines))).
Proof.
  split; [reflexivity|]. intros fieldnames lines Hl. unfold load_mock_data.
  rewrite load_rows_complete; [reflexivity|].
  simpl. apply Forall_map. apply Forall_forall. intros l Hin.
  apply filter_In in Hin. destruct Hin as [Hin Hnb].
  rewrite Forall_forall in Hl. destruct (Hl l Hin) as [->|Hlen].
  - discriminate Hnb.
  - apply DictReader_row_complete. exact Hlen.
Qed.

Lemma row_price_default (float_of_str : string -> option Q) (row : csv_row)
  (s : string) :
  dict_get row "price" None = Some s -> float_of_str s = None ->
  row_price float_of_str row = 0.
Proof.
  unfold row_price. intros -> ->. destruct (PyStr.truthy s); reflexivity.
Qed.

(** C9 fails on the code: a line with fewer fields than the header makes
    the loader raise.  [DictReader] stores [None] under the missing field
    names, [row.get(k, "")] returns that [None], and [None.strip()] raises
    outside the only [try] of the loop. *)
Theorem load_mock_data_short_row_raises (float_of_str : string -> option Q) :
  DictReader short_row_csv
  = [[("state", Some "Karnataka"); ("district", Some "Bengaluru");
      ("market", None); ("crop", None); ("date", None); ("price", None);
      ("unit", None)]]
  /\ load_mock_data float_of_str (Some short_row_csv)
     = Raise (AttributeError "'NoneType' object has no attribute 'strip'").
Proof. split; reflexivity. Qed.

(** ** Requests with an empty state *)

Lemma matches_empty_state_same (di cr ma : string) (r r' : PriceRecord) :
  same_but_state r r' -> matches "" di cr ma r = matches "" di cr ma r'.
Proof.
  intros (Hd & Hm & Hc & _). unfold matches. simpl.
  rewrite Hd, Hm, Hc. reflexivity.
Qed.

Lemma Forall2_filter {A : Type} (R : A -> A -> Prop) (p q : A -> bool)
  (l l' : list A) :
  (forall a b, R a b -> p a = q b) ->
  Forall2 R l l' -> Forall2 R (filter p l) (filter q l').
Proof.
  intros Hpq. induction 1 as [|a b l l' Hab Hl IH]; simpl; [constructor|].
  rewrite (Hpq a b Hab). destruct (q b); [constructor|]; assumption.
Qed.

Lemma candidates_of_same (data data' : list PriceRecord) (di cr ma : string) :
  Forall2 same_but_state data data' ->
  Forall2 same_but_state (candidates_of data "" di cr ma)
                         (candidates_of data' "" di cr ma).
Proof.
  intros H. unfold candidates_of.
  pose proof (Forall2_filter same_but_state _ _ data data'
                (matches_empty_state_same di cr ma) H) as Hf.
  destruct Hf as [|a b l l' Hab Hl].
  - apply Forall2_filter; [|exact H].
    intros a b (_ & _ & Hc & _). rewrite Hc. reflexivity.
  - constructor; assumption.
Qed.

Lemma with_dates_of_same (l l' : list PriceRecord) :
  Forall2 same_but_state l l' ->
  Forall2 (fun x y => fst x = fst y /\ same_but_state (snd x) (snd y))
          (with_dates_of l) (with_dates_of l').
Proof.
  induction 1 as [|a b l l' Hab Hl IH]; simpl; [constructor|].
  destruct Hab as (Hd & Hm & Hc & Hda & Hp & Hu). rewrite Hda.
  destruct (Strptime.strptime_ymd (Row.date b)); [|exact IH].
  constructor; [|exact IH]. simpl. unfold same_but_state. auto 10.
Qed.

Lemma insert_desc_same x y l l' :
  (fst x = fst y /\ same_but_state (snd x) (snd y)) ->
  Forall2 (fun x y => fst x = fst y /\ same_but_state (snd x) (snd y)) l l' ->
  Forall2 (fun x y => fst x = fst y /\ same_but_state (snd x) (snd y))
          (insert_desc x l) (insert_desc y l').
Proof.
  intros Hxy. induction 1 as [|a b l l' Hab Hl IH]; simpl.
  - constructor; [exact Hxy | constructor].
  - destruct Hxy as [Hk Hs]. destruct Hab as [Hk' Hs']. rewrite Hk, Hk'.
    destruct (date_leb (fst b) (fst y)).
    + constructor; [auto|]. constructor; auto.
    + constructor; [auto | exact IH].
Qed.

Lemma sort_desc_same l l' :
  Forall2 (fun x y => fst x = fst y /\ same_but_state (snd x) (snd y)) l l' ->
  Forall2 (fun x y => fst x = fst y /\ same_but_state (snd x) (snd y))
          (sort_desc l) (sort_desc l').
Proof.
  induction 1 as [|a b l l' Hab Hl IH]; simpl; [constructor|].
  apply insert_desc_same; assumption.
Qed.

Lemma positive_prices_same (l l' : list PriceRecord) :
  Forall2 same_but_state l l' -> positive_prices l = positive_prices l'.
Proof.
  unfold positive_prices.
  induction 1 as [|a b l l' Hab Hl IH]; simpl; [reflexivity|].
  destruct Hab as (_ & _ & _ & _ & Hp & _). rewrite Hp.
  destruct (Qltb 0 (Row.price b)); simpl; rewrite ?Hp, IH; reflexivity.
Qed.

(** With an empty state the finder's answer on two datasets that differ in
    the states of their records only differs in the state only. *)
Lemma find_recent_price_empty_state_same (data data' : list PriceRecord)
  (di cr ma : string) :
  Forall2 same_but_state data data' ->
  match find_recent_price data "" di cr ma,
        find_recent_price data' "" di cr ma with
  | Return None, Return None => True
  | Return (Some r), Return (Some r') => same_but_state r r'
  | Raise e, Raise e' => e = e'
  | _, _ => False
  end.
Proof.
  intros H. rewrite !find_recent_price_candidates.
  pose proof (candidates_of_same data data' di cr ma H) as Hc.
  destruct Hc as [|c0 c0' cs cs' Hc0 Hcs]; [exact I|].
  assert (Hcc : Forall2 same_but_state (c0 :: cs) (c0' :: cs'))
    by (constructor; assumption).
  pose proof (with_dates_of_same _ _ Hcc) as Hw.
  rewrite (positive_prices_same _ _ Hcc).
  destruct Hw as [|w w' ws ws' Hw0 Hws].
  - destruct (positive_prices (c0' :: cs')) as [|p ps]; [exact I|].
    destruct (median (p :: ps)) as [med|e]; simpl; [|reflexivity].
    destruct Hc0 as (Hd & Hm & Hc & Hda & Hp & Hu).
    unfold same_but_state. simpl. auto 10.
  - assert (Hww : Forall2 (fun x y => fst x = fst y /\ same_but_state (snd x) (snd y))
                          (w :: ws) (w' :: ws')) by (constructor; assumption).
    pose proof (sort_desc_same _ _ Hww) as Hs.
    destruct Hs as [|[d r] [d' r'] ss ss' [_ Hr] _]; [reflexivity|].
    exact Hr.
Qed.

Lemma current_of_same (rnd : RandomSource) (crop : string) (r r' : PriceRecord) :
  same_but_state r r' ->
  current_of rnd (Some r) crop = current_of rnd (Some r') crop.
Proof.
  intros (_ & _ & _ & _ & Hp & Hu). simpl. rewrite Hp, Hu. reflexivity.
Qed.

(** C10: a request with an empty state is answered without looking at the
    state of any record: in the filter every record passes as it would
    for its own state, and the response is the same on every dataset that
    differs in the states of its records only. *)
Theorem empty_state_skips_state_check :
  (forall (di cr ma : string) (r : PriceRecord),
      matches "" di cr ma r = matches (Row.state r) di cr ma r) /\
  (forall (data data' : list PriceRecord) (rnd : RandomSource)
          (now : datetime) (req : PredictRequest),
      Req.state req = "" ->
      Forall2 same_but_state data data' ->
      predict data rnd now req = predict data' rnd now req).
Proof.
  split.
  - intros di cr ma r. unfold matches. rewrite eq_lower_refl. simpl.
    rewrite andb_false_r. reflexivity.
  - intros data data' rnd now req Hst H. unfold predict. rewrite Hst.
    destruct (month_to_date (Req.month req)) as [target|e]; [|reflexivity].
    pose proof (find_recent_price_empty_state_same data data'
                  (opt_or_empty (Req.district req)) (Req.crop req)
                  (opt_or_empty (Req.market req)) H) as Hf.
    destruct (find_recent_price data _ _ _ _) as [[r|]|e],
             (find_recent_price data' _ _ _ _) as [[r'|]|e'];
      try contradiction; cbn [bind].
    + rewrite (current_of_same rnd (Req.crop req) r r' Hf). reflexivity.
    + reflexivity.
    + rewrite Hf. reflexivity.
Qed.

Lemma empty_state_skips_state_check_witness :
  predict rice_rows no_randomness june_2025
    (Req.mk "" None None "Rice" "2025-08")
  = predict (map (fun r => Row.mk "Assam" (Row.district r) (Row.market r)
                              (Row.crop r) (Row.date r) (Row.price r) (Row.unit r))
                 rice_rows)
      no_randomness june_2025 (Req.mk "" None None "Rice" "2025-08").
Proof.
  apply (proj2 empty_state_skips_state_check); [reflexivity|].
  unfold rice_rows, same_but_state.
  repeat constructor.
Defined.

(** ** The month of a request *)

Lemma digit_range (c : ascii) (v : Z) :
  Strptime.digit c = Some v -> (0 <= v <= 9)%Z.
Proof.
  unfold Strptime.digit.
  destruct (Z.leb_spec 48 (Z.of_nat (nat_of_ascii c))) as [Hlo|Hlo];
    destruct (Z.leb_spec (Z.of_nat (nat_of_ascii c)) 57) as [Hhi|Hhi]; simpl;
    intros Hv; inversion Hv; lia.
Qed.

Lemma digit_not_hyphen (c : ascii) (v : Z) :
  Strptime.digit c = Some v -> Ascii.eqb c "-" = false.
Proof.
  intros H. destruct (Ascii.eqb_spec c "-") as [->|]; [discriminate H | reflexivity].
Qed.

Lemma string_length_append (s t : string) :
  String.length (s ++ t) = (String.length s + String.length t)%nat.
Proof. induction s as [|c s IH]; simpl; [reflexivity | rewrite IH; reflexivity]. Qed.

Lemma one_digit_length (s r : string) (x : Z) :
  Strptime.one_digit s = Some (x, r) -> String.length s = S (String.length r).
Proof.
  destruct s as [|a s]; simpl; [discriminate|].
  destruct (Strptime.digit a); [|discriminate].
  intros H. injection H as _ <-. reflexivity.
Qed.

Lemma two_digits_length (s r : string) (x y : Z) :
  Strptime.two_digits s = Some (x, y, r) ->
  String.length s = S (S (String.length r)).
Proof.
  unfold Strptime.two_digits.
  destruct (Strptime.one_digit s) as [[x' s']|] eqn:E1; [|discriminate].
  destruct (Strptime.one_digit s') as [[y' r']|] eqn:E2; [|discriminate].
  intros H. injection H as _ _ <-.
  rewrite (one_digit_length _ _ _ E1), (one_digit_length _ _ _ E2). reflexivity.
Qed.

Lemma match_Y_length (s r : string) (y : Z) :
  Strptime.match_Y s = Some (y, r) -> String.length s = (4 + String.length r)%nat.
Proof.
  unfold Strptime.match_Y.
  destruct (Strptime.two_digits s) as [[[a b] s']|] eqn:E1; [|discriminate].
  destruct (Strptime.two_digits s') as [[[c d] r']|] eqn:E2; [|discriminate].
  intros H. injection H as _ <-.
  rewrite (two_digits_length _ _ _ _ E1), (two_digits_length _ _ _ _ E2).
  reflexivity.
Qed.

Lemma match_literal_length (c : ascii) (s r : string) :
  Strptime.match_literal c s = Some r -> String.length s = S (String.length r).
Proof.
  destruct s as [|a s]; simpl; [discriminate|].
  destruct (Ascii.eqb a c); [|discriminate].
  intros H. injection H as <-. reflexivity.
Qed.

Lemma alt2_length ok (s r : string) (v : Z) :
  In (v, r) (Strptime.alt2 ok s) -> (String.length s <= 2 + String.length r)%nat.
Proof.
  unfold Strptime.alt2.
  destruct (Strptime.two_digits s) as [[[a b] s']|] eqn:E; [|intros []].
  destruct (ok a b); [|intros []].
  intros [H|[]]. injection H as _ <-.
  rewrite (two_digits_length _ _ _ _ E). lia.
Qed.

Lemma alt1_length (s r : string) (v : Z) :
  In (v, r) (Strptime.alt1 s) -> (String.length s <= 1 + String.length r)%nat.
Proof.
  unfold Strptime.alt1.
  destruct (Strptime.one_digit s) as [[a s']|] eqn:E; [|intros []].
  destruct (1 <=? a)%Z; [|intros []].
  intros [H|[]]. injection H as _ <-.
  rewrite (one_digit_length _ _ _ E). lia.
Qed.

Lemma alts_m_length (s r : string) (v : Z) :
  In (v, r) (Strptime.alts_m s) -> (String.length s <= 2 + String.length r)%nat.
Proof.
  unfold Strptime.alts_m. rewrite !in_app_iff.
  intros [H|[H|H]].
  - apply alt2_length in H. exact H.
  - apply alt2_length in H. exact H.
  - apply alt1_length in H. lia.
Qed.

Lemma alts_d_length (s r : string) (v : Z) :
  In (v, r) (Strptime.alts_d s) -> (String.length s <= 2 + String.length r)%nat.
Proof.
  unfold Strptime.alts_d. rewrite !in_app_iff.
  intros [H|[H|[H|[H|H]]]].
  - apply alt2_length in H. exact H.
  - apply alt2_length in H. exact H.
  - apply alt2_length in H. exact H.
  - apply alt1_length in H. lia.
  - destruct (Strptime.match_literal " " s) as [s'|] eqn:E; [|destruct H].
    apply alt1_length in H. apply match_literal_length in E. lia.
Qed.

Lemma first_match_Some {A B : Type} (k : A -> option B) (alts : list A) (b : B) :
  Strptime.first_match k alts = Some b -> exists a, In a alts /\ k a = Some b.
Proof.
  induction alts as [|a alts IH]; simpl; [discriminate|].
  destruct (k a) as [b'|] eqn:E.
  - intros H. injection H as <-. exists a. auto.
  - intros H. destruct (IH H) as (a' & Hin & Hk). exists a'. auto.
Qed.

Lemma match_m_d_length (s rest : string) (m d : Z) :
  Strptime.match_m_d s = Some (m, d, rest) ->
  (String.length s <= 5 + String.length rest)%nat.
Proof.
  unfold Strptime.match_m_d.
  intros H. apply first_match_Some in H. destruct H as ([m' s2] & Hm & H).
  simpl in H.
  destruct (Strptime.match_literal "-" s2) as [s3|] eqn:E2; [|discriminate].
  apply first_match_Some in H. destruct H as ([d' s4] & Hd & H).
  simpl in H. injection H as _ _ <-.
  apply match_literal_length in E2.
  apply alts_m_length in Hm. apply alts_d_length in Hd. lia.
Qed.

Lemma regex_match_length (s rest : string) (y m d : Z) :
  Strptime.regex_match s = Some (y, m, d, rest) ->
  (String.length s <= 10 + String.length rest)%nat.
Proof.
  unfold Strptime.regex_match.
  destruct (Strptime.match_Y s) as [[y' s0]|] eqn:EY; [|discriminate].
  destruct (Strptime.match_literal "-" s0) as [s1|] eqn:E1; [|discriminate].
  destruct (Strptime.match_m_d s1) as [[[m' d'] rest']|] eqn:E2; [|discriminate].
  intros H. injection H as _ _ _ <-.
  apply match_Y_length in EY. apply match_literal_length in E1.
  apply match_m_d_length in E2. lia.
Qed.

Lemma strptime_ymd_length (s : string) (d : datetime) :
  Strptime.strptime_ymd s = Some d -> (String.length s <= 10)%nat.
Proof.
  unfold Strptime.strptime_ymd.
  destruct (Strptime.regex_match s) as [[[[y m] dd] rest]|] eqn:E; [|discriminate].
  destruct rest; [|discriminate]. intros _.
  apply regex_match_length in E. simpl in E. lia.
Qed.

Lemma days_in_month_ge (y m : Z) : (28 <= Strptime.days_in_month y m)%Z.
Proof.
  unfold Strptime.days_in_month.
  destruct (m =? 2)%Z; [destruct (Strptime.is_leap y); lia|].
  destruct (_ || _); lia.
Qed.

Lemma valid_date_first (y m : Z) :
  Strptime.valid_date y m 1 = ((1 <=? y) && (1 <=? m) && (m <=? 12))%Z.
Proof.
  unfold Strptime.valid_date.
  pose proof (days_in_month_ge y m) as H.
  destruct (Z.leb_spec 1 (Strptime.days_in_month y m)); [|lia].
  simpl. rewrite !andb_true_r. reflexivity.
Qed.

Lemma match_literal_cons (c a : ascii) (r : string) :
  Strptime.match_literal c (String a r) = if Ascii.eqb a c then Some r else None.
Proof. reflexivity. Qed.

Lemma match_m_d_two (e f : ascii) (x w : Z) :
  Strptime.digit e = Some x -> Strptime.digit f = Some w ->
  Strptime.match_m_d (String e (String f "-01"))
  = if ((1 <=? 10 * x + w) && (10 * x + w <=? 12))%Z
    then Some ((10 * x + w)%Z, 1%Z, "") else None.
Proof.
  intros Ee Ef.
  pose proof (digit_range _ _ Ee) as Hx. pose proof (digit_range _ _ Ef) as Hw.
  pose proof (digit_not_hyphen _ _ Ef) as Hf.
  cbv beta iota delta [Strptime.match_m_d Strptime.alts_m Strptime.alt2
    Strptime.alt1 Strptime.two_digits Strptime.one_digit].
  rewrite !Ee, !Ef.
  digit_values x; digit_values w;
    cbn -[Strptime.match_literal];
    rewrite ?(match_literal_cons "-" f), ?Hf; reflexivity.
Qed.

Lemma match_m_d_one (e : ascii) (x : Z) :
  Strptime.digit e = Some x ->
  Strptime.match_m_d (String e "-01")
  = if (1 <=? x)%Z then Some (x, 1%Z, "") else None.
Proof.
  intros Ee. pose proof (digit_range _ _ Ee) as Hx.
  cbv beta iota delta [Strptime.match_m_d Strptime.alts_m Strptime.alt2
    Strptime.alt1 Strptime.two_digits Strptime.one_digit].
  rewrite !Ee.
  digit_values x; reflexivity.
Qed.

Lemma match_Y_cons4 (a b c d : ascii) (r : string) :
  Strptime.match_Y (String a (String b (String c (String d r))))
  = match Strptime.digit a, Strptime.digit b, Strptime.digit c,
          Strptime.digit d with
    | Some x, Some y, Some z, Some w =>
        Some ((1000 * x + 100 * y + 10 * z + w)%Z, r)
    | _, _, _, _ => None
    end.
Proof.
  unfold Strptime.match_Y, Strptime.two_digits, Strptime.one_digit.
  destruct (Strptime.digit a), (Strptime.digit b), (Strptime.digit c),
    (Strptime.digit d); reflexivity.
Qed.

Lemma match_m_d_no_digit (e : ascii) (r : string) :
  Strptime.digit e = None -> Strptime.match_m_d (String e r) = None.
Proof.
  intros E.
  cbv beta iota delta [Strptime.match_m_d Strptime.alts_m Strptime.alt2
    Strptime.alt1 Strptime.two_digits Strptime.one_digit].
  rewrite !E. reflexivity.
Qed.

(** After the year and its hyphen, a text of at most two characters
    followed by ["-01"] matches exactly when it numbers a month. *)
Lemma match_m_d_month_number (rest : string) :
  (String.length rest <= 2)%nat ->
  match Strptime.match_m_d (rest ++ "-01") with
  | Some (m, d, r) =>
      month_number_text rest = true /\ r = "" /\ (1 <= m <= 12)%Z /\ d = 1%Z
  | None => month_number_text rest = false
  end.
Proof.
  intros Hlen.
  destruct rest as [|e [|f [|g rest]]]; [| | |simpl in Hlen; lia].
  - reflexivity.
  - simpl append. unfold month_number_text.
    destruct (Strptime.digit e) as [x|] eqn:Ee.
    + rewrite (match_m_d_one _ _ Ee).
      pose proof (digit_range _ _ Ee).
      destruct (Z.leb_spec 1 x); [|reflexivity].
      repeat split; lia.
    + rewrite (match_m_d_no_digit _ _ Ee). reflexivity.
  - simpl append. unfold month_number_text.
    destruct (Strptime.digit e) as [x|] eqn:Ee.
    + destruct (Strptime.digit f) as [w|] eqn:Ef.
      * rewrite (match_m_d_two _ _ _ _ Ee Ef).
        destruct (Z.leb_spec 1 (10 * x + w)), (Z.leb_spec (10 * x + w) 12);
          cbn [andb]; try reflexivity.
        repeat split; lia.
      * cbv beta iota delta [Strptime.match_m_d Strptime.alts_m Strptime.alt2
          Strptime.alt1 Strptime.two_digits Strptime.one_digit].
        rewrite !Ee, !Ef.
        destruct (1 <=? x)%Z; [|reflexivity].
        cbn -[Strptime.match_literal]. rewrite match_literal_cons.
        destruct (Ascii.eqb f "-"); reflexivity.
    + rewrite (match_m_d_no_digit _ _ Ee). reflexivity.
Qed.

(** [month_to_date] parses a month string exactly when it is four digits
    that are not all zero, a hyphen and the number of a month in one or two
    digits. *)
Lemma accepted_month_strptime (s : string) :
  accepted_month s =
  match Strptime.strptime_ymd (s ++ "-01") with
  | Some _ => true
  | None => false
  end.
Proof.
  destruct s as [|a [|b [|c [|d [|h rest]]]]].
  - reflexivity.
  - simpl append. unfold Strptime.strptime_ymd, Strptime.regex_match.
    rewrite match_Y_cons4.
    destruct (Strptime.digit a); reflexivity.
  - simpl append. unfold Strptime.strptime_ymd, Strptime.regex_match.
    rewrite match_Y_cons4.
    destruct (Strptime.digit a), (Strptime.digit b); reflexivity.
  - simpl append. unfold Strptime.strptime_ymd, Strptime.regex_match.
    rewrite match_Y_cons4.
    destruct (Strptime.digit a), (Strptime.digit b), (Strptime.digit c);
      reflexivity.
  - simpl append. unfold Strptime.strptime_ymd, Strptime.regex_match.
    rewrite match_Y_cons4.
    destruct (Strptime.digit a), (Strptime.digit b), (Strptime.digit c),
      (Strptime.digit d); reflexivity.
  - destruct (Nat.le_gt_cases (String.length rest) 2) as [Hlen|Hlen].
    + pose proof (match_m_d_month_number rest Hlen) as Hmd.
      simpl append. unfold accepted_month, Strptime.strptime_ymd, Strptime.regex_match.
      rewrite match_Y_cons4.
      destruct (Strptime.digit a) as [x|]; [|reflexivity].
      destruct (Strptime.digit b) as [y|]; [|reflexivity].
      destruct (Strptime.digit c) as [z|]; [|reflexivity].
      destruct (Strptime.digit d) as [w|]; [|reflexivity].
      rewrite match_literal_cons.
      destruct (Ascii.eqb h "-"); [|rewrite andb_false_r; reflexivity].
      destruct (Strptime.match_m_d (rest ++ "-01")) as [[[m dd] r]|].
      * destruct Hmd as (Hmt & -> & Hm & ->). rewrite Hmt, valid_date_first.
        destruct (Z.leb_spec 1 m); [|lia]. destruct (Z.leb_spec m 12); [|lia].
        rewrite !andb_true_r.
        destruct (1 <=? 1000 * x + 100 * y + 10 * z + w)%Z; reflexivity.
      * rewrite Hmd, andb_false_r. reflexivity.
    + destruct (Strptime.strptime_ymd _) as [dt|] eqn:E.
      * apply strptime_ymd_length in E. rewrite string_length_append in E.
        simpl in E. lia.
      * unfold accepted_month.
        destruct rest as [|e [|f [|g rest]]]; try (simpl in Hlen; lia).
        unfold month_number_text.
        destruct (Strptime.digit a), (Strptime.digit b), (Strptime.digit c),
          (Strptime.digit d); try reflexivity.
        rewrite andb_false_r. reflexivity.
Qed.

Lemma digit_zero (c : ascii) : Strptime.digit c = Some 0%Z -> c = "0"%char.
Proof.
  unfold Strptime.digit.
  destruct (_ && _); [|discriminate].
  intros H. injection H as H.
  assert (E : nat_of_ascii c = 48%nat) by lia.
  rewrite <- (ascii_nat_embedding c), E. reflexivity.
Qed.

Lemma is_YYYY_MM_accepted (s : string) :
  is_YYYY_MM s = true -> PyStr.startswith "0000" s = false ->
  accepted_month s = true.
Proof.
  destruct s as [|a [|b [|c [|d [|h [|e [|f [|g rest]]]]]]]]; try discriminate.
  unfold is_YYYY_MM, accepted_month, month_number_text.
  destruct (Strptime.digit a) as [x|] eqn:Ea; [|discriminate].
  destruct (Strptime.digit b) as [y|] eqn:Eb; [|discriminate].
  destruct (Strptime.digit c) as [z|] eqn:Ec; [|discriminate].
  destruct (Strptime.digit d) as [w|] eqn:Ed; [|discriminate].
  destruct (Strptime.digit e) as [m1|]; [|discriminate].
  destruct (Strptime.digit f) as [m2|]; [|discriminate].
  intros H Hz. rewrite !andb_true_iff in H. destruct H as [[-> ->] ->].
  rewrite !andb_true_r.
  pose proof (digit_range _ _ Ea). pose proof (digit_range _ _ Eb).
  pose proof (digit_range _ _ Ec). pose proof (digit_range _ _ Ed).
  apply Z.leb_le.
  destruct (Z.eq_dec (1000 * x + 100 * y + 10 * z + w) 0) as [E0|]; [|lia].
  assert (x = 0 /\ y = 0 /\ z = 0 /\ w = 0)%Z as (-> & -> & -> & ->) by lia.
  apply digit_zero in Ea, Eb, Ec, Ed. subst. discriminate Hz.
Qed.

(** ** The handler never fails after the month is parsed *)

Lemma find_recent_price_returns (data : list PriceRecord) (st di cr ma : string) :
  exists o, find_recent_price data st di cr ma = Return o.
Proof.
  rewrite find_recent_price_candidates.
  destruct (candidates_of data st di cr ma) as [|c0 cs]; [eauto|].
  destruct (with_dates_of (c0 :: cs)) as [|w ws].
  - destruct (positive_prices (c0 :: cs)) as [|p ps]; [eauto|].
    destruct (median_is_median (p :: ps)) as (med & Hm & _); [discriminate|].
    rewrite Hm. simpl. eauto.
  - destruct (sort_desc_nonempty (w :: ws)) as (d & r & rest & Hs); [discriminate|].
    rewrite Hs. eauto.
Qed.

Lemma predict_month_parsed (data : list PriceRecord) (rnd : RandomSource)
  (now : datetime) (req : PredictRequest) (target : datetime) :
  month_to_date (Req.month req) = Return target ->
  exists resp, predict data rnd now req = Return resp.
Proof.
  intros Hm. unfold predict. rewrite Hm.
  destruct (find_recent_price_returns data (Req.state req)
              (opt_or_empty (Req.district req)) (Req.crop req)
              (opt_or_empty (Req.market req))) as [o ->].
  cbn [bind].
  destruct (current_of rnd o (Req.crop req)) as [[cp u] me]. eauto.
Qed.

Lemma month_to_date_accepted (ym : string) :
  (accepted_month ym = true -> exists d, month_to_date ym = Return d) /\
  (accepted_month ym = false ->
   month_to_date ym = Raise (ValueError "month must be YYYY-MM")).
Proof.
  rewrite accepted_month_strptime. unfold month_to_date.
  destruct (Strptime.strptime_ymd (ym ++ "-01")) as [d|];
    split; intros H; try discriminate; eauto.
Qed.

(** C8 (amended): the handler answers 400 exactly when [month_to_date]
    raises and 200 exactly when it returns.  For a month written in ASCII
    characters that is: 400 exactly when the month is not four digits that
    are not all zero, a hyphen and the number of a month from 1 to 12
    written with one or two digits, and 200 otherwise; every such month in
    the strict YYYY-MM format other than those of the year 0000 is
    accepted, and "2025-13" and "December" are rejected. *)
Theorem predict_rejects_unparsed_month (data : list PriceRecord)
  (rnd : RandomSource) (now : datetime) (req : PredictRequest) :
  (predict data rnd now req
     = Raise (HTTPException 400 "month must be in YYYY-MM format")
   <-> exists e, month_to_date (Req.month req) = Raise e)
  /\ ((exists resp, predict data rnd now req = Return resp)
      <-> exists d, month_to_date (Req.month req) = Return d)
  /\ (ascii_text (Req.month req) = true ->
      (predict data rnd now req
         = Raise (HTTPException 400 "month must be in YYYY-MM format")
       <-> accepted_month (Req.month req) = false)
      /\ ((exists resp, predict data rnd now req = Return resp)
          <-> accepted_month (Req.month req) = true)
      /\ (is_YYYY_MM (Req.month req) = true ->
          PyStr.startswith "0000" (Req.month req) = false ->
          accepted_month (Req.month req) = true))
  /\ accepted_month "2025-13" = false /\ accepted_month "December" = false.
Proof.
  destruct (month_to_date_accepted (Req.month req)) as [Hyes Hno].
  destruct (accepted_month (Req.month req)) eqn:Ea.
  - destruct (Hyes eq_refl) as [d Hd].
    destruct (predict_month_parsed data rnd now req d Hd) as [resp Hresp].
    split; [|split; [|split; [intros _; split; [|split]|]]].
    + split.
      * rewrite Hresp. discriminate.
      * intros [e He]. rewrite Hd in He. discriminate.
    + split; eauto.
    + split; [rewrite Hresp|]; discriminate.
    + split; eauto.
    + reflexivity.
    + split; reflexivity.
  - specialize (Hno eq_refl).
    assert (Hp : predict data rnd now req
                 = Raise (HTTPException 400 "month must be in YYYY-MM format")).
    { unfold predict. rewrite Hno. reflexivity. }
    split; [|split; [|split; [intros _; split; [|split]|]]].
    + split; eauto.
    + split.
      * intros [resp Hresp]. rewrite Hp in Hresp. discriminate.
      * intros [d Hd]. rewrite Hno in Hd. discriminate.
    + split; auto.
    + split; [|discriminate].
      intros [resp Hresp]. rewrite Hp in Hresp. discriminate.
    + intros H1 H2. rewrite <- Ea. apply is_YYYY_MM_accepted; assumption.
    + split; reflexivity.
Qed.

Lemma predict_rejects_unparsed_month_witness :
  exists resp,
    predict rice_rows no_randomness june_2025
      (Req.mk "Karnataka" None None "Rice" "2025-12") = Return resp.
Proof.
  destruct (proj1 (proj2 (proj2 (predict_rejects_unparsed_month rice_rows
                      no_randomness june_2025
                      (Req.mk "Karnataka" None None "Rice" "2025-12"))))
              eq_refl) as (_ & H200 & Hfmt).
  apply H200. apply Hfmt; reflexivity.
Defined.

(** C8 as stated fails in both directions: "2025-1" is not in the format
    YYYY-MM and is answered with 200, "0000-05" is in the format and is
    answered with 400. *)
Lemma predict_accepts_one_digit_month :
  is_YYYY_MM "2025-1" = false /\
  (exists resp,
     predict [] no_randomness june_2025 (rice_request "2025-1") = Return resp) /\
  is_YYYY_MM "0000-05" = true /\
  predict [] no_randomness june_2025 (rice_request "0000-05")
    = Raise (HTTPException 400 "month must be in YYYY-MM format").
Proof.
  split; [reflexivity|]. split; [eexists; reflexivity|].
  split; reflexivity.
Qed.

(** ** More on the price finder *)

Lemma candidates_of_cases (data : list PriceRecord) (st di cr ma : string) :
  (filter (matches st di cr ma) data <> [] /\
   candidates_of data st di cr ma = filter (matches st di cr ma) data)
  \/ (filter (matches st di cr ma) data = [] /\
      candidates_of data st di cr ma
      = filter (fun r => eq_lower (Row.crop r) cr) data).
Proof.
  unfold candidates_of.
  destruct (filter (matches st di cr ma) data) as [|c cs]; [right|left]; split;
    try reflexivity; discriminate.
Qed.

Lemma matches_crop (st di cr ma : string) (r : PriceRecord) :
  matches st di cr ma r = true -> eq_lower (Row.crop r) cr = true.
Proof.
  unfold matches. destruct (eq_lower (Row.crop r) cr); [reflexivity|].
  simpl. discriminate.
Qed.

Lemma candidates_of_In (data : list PriceRecord) (st di cr ma : string)
  (r : PriceRecord) :
  In r (candidates_of data st di cr ma) ->
  In r data /\ eq_lower (Row.crop r) cr = true.
Proof.
  destruct (candidates_of_cases data st di cr ma) as [[_ ->]|[_ ->]];
    intros H; apply filter_In in H; destruct H as [Hin Hm]; split; auto.
  eapply matches_crop; eauto.
Qed.

Lemma with_dates_of_In (l : list PriceRecord) (d : datetime) (r : PriceRecord) :
  In (d, r) (with_dates_of l) ->
  In r l /\ Strptime.strptime_ymd (Row.date r) = Some d.
Proof.
  induction l as [|c cs IH]; simpl; [tauto|].
  destruct (Strptime.strptime_ymd (Row.date c)) as [d0|] eqn:E.
  - intros [H|H].
    + injection H as <- <-. auto.
    + destruct (IH H). auto.
  - intros H. destruct (IH H). auto.
Qed.

(** The two ways the finder comes to return a record. *)
Lemma find_recent_price_Some (data : list PriceRecord) (st di cr ma : string)
  (r : PriceRecord) :
  find_recent_price data st di cr ma = Return (Some r) ->
  (In r (candidates_of data st di cr ma) /\
   exists d, Strptime.strptime_ymd (Row.date r) = Some d)
  \/ (with_dates_of (candidates_of data st di cr ma) = [] /\
      exists c0 cs med,
        candidates_of data st di cr ma = c0 :: cs /\
        positive_prices (c0 :: cs) <> [] /\
        median (positive_prices (c0 :: cs)) = Return med /\
        r = Row.with_price c0 med).
Proof.
  rewrite find_recent_price_candidates.
  destruct (candidates_of data st di cr ma) as [|c0 cs] eqn:Ec; [discriminate|].
  destruct (with_dates_of (c0 :: cs)) as [|w ws] eqn:Ew.
  - destruct (positive_prices (c0 :: cs)) as [|p ps] eqn:Ep; [discriminate|].
    destruct (median (p :: ps)) as [med|e] eqn:Em; simpl; [|discriminate].
    intros H. injection H as <-. right. split; [reflexivity|].
    exists c0, cs, med. rewrite Ep. repeat split; auto. discriminate.
  - destruct (sort_desc_head (w :: ws)) as (d & r' & rest & p1 & p2 & Hs & Hl & _);
      [discriminate|].
    rewrite Hs. intros H. injection H as <-. left.
    assert (Hin : In (d, r') (with_dates_of (c0 :: cs))).
    { rewrite Ew, Hl. apply in_or_app. right. left. reflexivity. }
    apply with_dates_of_In in Hin. destruct Hin as [Hin Hd]. eauto.
Qed.

(** X1: the finder never raises: taking the head of the sorted list and the
    median of the prices are both guarded by a test for emptiness. *)
Theorem find_recent_price_never_raises (data : list PriceRecord)
  (st di cr ma : string) (e : exn) :
  find_recent_price data st di cr ma <> Raise e.
Proof.
  destruct (find_recent_price_returns data st di cr ma) as [o Ho].
  rewrite Ho. discriminate.
Qed.

Lemma with_dates_of_nil_inv (l : list PriceRecord) :
  with_dates_of l = [] ->
  forall r, In r l -> Strptime.strptime_ymd (Row.date r) = None.
Proof.
  intros H r Hin.
  destruct (Strptime.strptime_ymd (Row.date r)) as [d|] eqn:E; [|reflexivity].
  pose proof (in_with_dates_of _ _ _ Hin E) as Hi. rewrite H in Hi. destruct Hi.
Qed.

Lemma positive_prices_nil_inv (l : list PriceRecord) :
  positive_prices l = [] -> forall r, In r l -> ~ 0 < Row.price r.
Proof.
  intros H r Hin Hp. pose proof (positive_prices_In _ _ Hin Hp) as Hi.
  rewrite H in Hi. destruct Hi.
Qed.

(** X2: the finder returns nothing exactly when no candidate has a date
    that parses or a positive price (in particular on an empty dataset). *)
Theorem find_recent_price_none_iff (data : list PriceRecord)
  (st di cr ma : string) :
  find_recent_price data st di cr ma = Return None <->
  forall r, In r (candidates_of data st di cr ma) ->
            Strptime.strptime_ymd (Row.date r) = None /\ ~ 0 < Row.price r.
Proof.
  rewrite find_recent_price_candidates.
  destruct (candidates_of data st di cr ma) as [|c0 cs] eqn:Ec.
  - split; [intros _ r []|reflexivity].
  - split.
    + intros H.
      destruct (with_dates_of (c0 :: cs)) as [|w ws] eqn:Ew.
      * destruct (positive_prices (c0 :: cs)) as [|p ps] eqn:Ep.
        -- intros r Hr. split.
           ++ apply (with_dates_of_nil_inv _ Ew). exact Hr.
           ++ apply (positive_prices_nil_inv _ Ep). exact Hr.
        -- destruct (median (p :: ps)); simpl in H; discriminate.
      * destruct (sort_desc_nonempty (w :: ws)) as (d & r' & rest & Hs);
          [discriminate|].
        rewrite Hs in H. discriminate.
    + intros H.
      rewrite (with_dates_of_nil (c0 :: cs)) by (intros r Hr; apply H; exact Hr).
      rewrite (positive_prices_nil (c0 :: cs)) by (intros r Hr; apply H; exact Hr).
      reflexivity.
Qed.

Lemma matches_with_price (st di cr ma : string) (r : PriceRecord) (p : Q) :
  matches st di cr ma (Row.with_price r p) = matches st di cr ma r.
Proof. reflexivity. Qed.

(** X3: every record the finder returns is of the requested crop, whatever
    the case of the letters; when the first pass finds a candidate the
    record also passes the whole filter, and when it is chosen by its date
    it is a record of the dataset. *)
Theorem find_recent_price_result_matches (data : list PriceRecord)
  (st di cr ma : string) (r : PriceRecord) :
  find_recent_price data st di cr ma = Return (Some r) ->
  PyStr.lower (Row.crop r) = PyStr.lower cr /\
  (filter (matches st di cr ma) data <> [] -> matches st di cr ma r = true) /\
  (Strptime.strptime_ymd (Row.date r) <> None -> In r data).
Proof.
  intros H. destruct (find_recent_price_Some _ _ _ _ _ _ H)
    as [[Hin _]|(Hnd & c0 & cs & med & Hc & _ & _ & ->)].
  - destruct (candidates_of_In _ _ _ _ _ _ Hin) as [Hd Hcrop].
    split; [apply eq_lower_true; exact Hcrop|]. split; [|auto].
    intros Hne. destruct (candidates_of_cases data st di cr ma) as [[_ E]|[E _]];
      [|contradiction].
    rewrite E in Hin. apply filter_In in Hin. tauto.
  - assert (Hin : In c0 (candidates_of data st di cr ma))
      by (rewrite Hc; left; reflexivity).
    destruct (candidates_of_In _ _ _ _ _ _ Hin) as [Hd Hcrop].
    split; [apply eq_lower_true; exact Hcrop|]. split.
    + intros Hne. rewrite matches_with_price.
      destruct (candidates_of_cases data st di cr ma) as [[_ E]|[E _]];
        [|contradiction].
      rewrite E in Hin. apply filter_In in Hin. tauto.
    + intros Hp. exfalso. apply Hp.
      apply (with_dates_of_nil_inv _ Hnd c0 Hin).
Qed.

Lemma find_recent_price_result_matches_witness :
  PyStr.lower "Rice" = PyStr.lower "rice" /\
  In (Row.mk "Karnataka" "Mysuru" "Main Market" "Rice" "2025-03-01" 32 "kg")
     rice_rows.
Proof.
  destruct (find_recent_price_result_matches rice_rows "Karnataka" "" "rice" ""
              (Row.mk "Karnataka" "Mysuru" "Main Market" "Rice" "2025-03-01" 32 "kg")
              eq_refl) as (H1 & _ & H3).
  split; [exact H1|]. apply H3. vm_compute. discriminate.
Defined.

Lemma filter_filter_implied {A : Type} (p q : A -> bool) (l : list A) :
  (forall a, p a = true -> q a = true) ->
  filter p (filter q l) = filter p l.
Proof.
  intros Hpq. induction l as [|a l IH]; simpl; [reflexivity|].
  destruct (q a) eqn:Eq; simpl.
  - rewrite IH. reflexivity.
  - destruct (p a) eqn:Ep; [|exact IH].
    rewrite (Hpq a Ep) in Eq. discriminate.
Qed.

(** X4: the answer of the finder depends on the records of the requested
    crop only: records of other crops can be removed from the dataset, or
    added to it, without changing it. *)
Theorem find_recent_price_only_crop_rows (data : list PriceRecord)
  (st di cr ma : string) :
  find_recent_price data st di cr ma
  = find_recent_price
      (filter (fun r => String.eqb (PyStr.lower (Row.crop r)) (PyStr.lower cr)) data)
      st di cr ma.
Proof.
  rewrite !find_recent_price_candidates. unfold candidates_of.
  change (fun r : PriceRecord => String.eqb (PyStr.lower (Row.crop r)) (PyStr.lower cr))
    with (fun r : PriceRecord => eq_lower (Row.crop r) cr).
  rewrite (filter_filter_implied (matches st di cr ma)
             (fun r => eq_lower (Row.crop r) cr) data (matches_crop st di cr ma)).
  rewrite (filter_filter_implied (fun r => eq_lower (Row.crop r) cr)
             (fun r => eq_lower (Row.crop r) cr) data (fun a H => H)).
  reflexivity.
Qed.

(** ** The synthesized record *)

Lemma sorted_In (l : list Q) (x : Q) : In x (sorted l) -> In x l.
Proof.
  revert x. induction l as [|y l IH]; simpl; [tauto|].
  intros x H. apply insert_asc_In in H. destruct H as [->|H]; auto.
Qed.

(** The median lies between two elements of the list. *)
Lemma median_between (l : list Q) (m : Q) :
  median l = Return m ->
  exists a b, In a l /\ In b l /\ a <= m /\ m <= b.
Proof.
  unfold median.
  pose proof (sorted_ascending l) as Hasc.
  assert (Hin : forall x, In x (sorted l) -> In x l) by (intros x; apply sorted_In).
  set (s := sorted l) in *. set (n := List.length s) in *.
  destruct (Nat.eqb_spec n 0) as [E0|E0]; [discriminate|].
  pose proof (Nat.div_mod_eq n 2) as Hdm.
  pose proof (Nat.mod_upper_bound n 2 ltac:(lia)) as Hmod.
  destruct (Nat.eqb_spec (n mod 2) 1) as [E1|E1]; intros H; injection H as <-.
  - exists (nth (n / 2) s 0), (nth (n / 2) s 0).
    assert (Hi : In (nth (n / 2) s 0) s) by (apply nth_In; fold n; lia).
    repeat split; auto; apply Qle_refl.
  - set (i := (n / 2)%nat) in *.
    pose proof (ascending_nth_le s (i - 1) i Hasc ltac:(lia) ltac:(fold n; lia)) as Hab.
    exists (nth (i - 1) s 0), (nth i s 0).
    assert (Ha : In (nth (i - 1) s 0) s) by (apply nth_In; fold n; lia).
    assert (Hb : In (nth i s 0) s) by (apply nth_In; fold n; lia).
    set (a := nth (i - 1) s 0) in *. set (b := nth i s 0) in *.
    repeat split; auto.
    + change (a <= (a + b) / 2).
      apply Qle_shift_div_l; [reflexivity|]. lra.
    + change ((a + b) / 2 <= b).
      apply Qle_shift_div_r; [reflexivity|]. lra.
Qed.

Lemma positive_prices_pos (l : list PriceRecord) (p : Q) :
  In p (positive_prices l) -> exists r, In r l /\ Row.price r = p /\ 0 < p.
Proof.
  unfold positive_prices. intros H. apply in_map_iff in H.
  destruct H as (r & Hp & Hr). apply filter_In in Hr. destruct Hr as [Hin Hpos].
  exists r. rewrite <- Hp. repeat split; auto. apply Qltb_lt. exact Hpos.
Qed.

(** X5: a record synthesized by the median fallback carries a positive
    price that lies between two positive prices of the candidates, so the
    handler always takes it as the current price. *)
Theorem find_recent_price_median_is_positive (data : list PriceRecord)
  (st di cr ma : string) (r : PriceRecord) (rnd : RandomSource) :
  find_recent_price data st di cr ma = Return (Some r) ->
  Strptime.strptime_ymd (Row.date r) = None ->
  0 < Row.price r /\
  (exists a b, In a (candidates_of data st di cr ma) /\
               In b (candidates_of data st di cr ma) /\
               0 < Row.price a /\ Row.price a <= Row.price r /\
               Row.price r <= Row.price b) /\
  current_of rnd (Some r) cr
  = (Row.price r, str_or (Row.unit r) "kg", "mock-data").
Proof.
  intros H Hnd. destruct (find_recent_price_Some _ _ _ _ _ _ H)
    as [[_ [d Hd]]|(_ & c0 & cs & med & Hc & _ & Hm & ->)]; [congruence|].
  rewrite Hc. simpl Row.price.
  destruct (median_between _ _ Hm) as (a & b & Ha & Hb & Hle1 & Hle2).
  apply positive_prices_pos in Ha, Hb.
  destruct Ha as (ra & Hra & <- & Hpa). destruct Hb as (rb & Hrb & <- & Hpb).
  assert (Hpos : 0 < med) by lra.
  split; [exact Hpos|]. split; [exists ra, rb; auto|].
  unfold current_of. simpl Row.price.
  apply Qltb_lt in Hpos. rewrite Hpos. reflexivity.
Qed.

Lemma find_recent_price_median_is_positive_witness :
  exists r,
    find_recent_price three_undated "Kerala" "Kochi" "onion" "" = Return (Some r) /\
    0 < Row.price r.
Proof.
  eexists. split; [reflexivity|].
  apply (find_recent_price_median_is_positive three_undated
           "Kerala" "Kochi" "onion" "" _ no_randomness eq_refl eq_refl).
Defined.

(** ** The response of the handler *)

Lemma str_or_nonempty (a b : string) : b <> "" -> str_or a b <> "".
Proof.
  intros Hb. unfold str_or. destruct a; simpl; [exact Hb | discriminate].
Qed.

(** X6: a response echoes state, district, market, crop and month of the
    request, never has an empty unit, and is tagged "mock-data" exactly when
    the finder returned a record with a positive price, whose rounded price
    and unit (or "kg" for an empty one) it then carries; otherwise it is
    tagged "synthetic" and its unit is "kg". *)
Theorem predict_response_fields (data : list PriceRecord) (rnd : RandomSource)
  (now : datetime) (req : PredictRequest) (resp : PredictResponse) :
  predict data rnd now req = Return resp ->
  let found := find_recent_price data (Req.state req)
                 (opt_or_empty (Req.district req)) (Req.crop req)
                 (opt_or_empty (Req.market req)) in
  (Resp.state resp = Req.state req /\ Resp.district resp = Req.district req /\
   Resp.market resp = Req.market req /\ Resp.crop resp = Req.crop req /\
   Resp.month resp = Req.month req) /\
  Resp.unit resp <> "" /\
  ((Resp.method resp = "mock-data" /\
    exists r, found = Return (Some r) /\ 0 < Row.price r /\
              Resp.currentPrice resp = round2 (Row.price r) /\
              Resp.unit resp = (if PyStr.truthy (Row.unit r) then Row.unit r else "kg"))
   \/ (Resp.method resp = "synthetic" /\ Resp.unit resp = "kg" /\
       (found = Return None \/
        exists r, found = Return (Some r) /\ Row.price r <= 0))).
Proof.
  intros H found.
  destruct (predict_Return _ _ _ _ _ H) as (target & record & Hm & Hf & Hresp).
  cbv zeta in Hresp. subst resp. cbn [Resp.state Resp.district Resp.market
    Resp.crop Resp.month Resp.unit Resp.currentPrice Resp.method].
  split; [repeat split|].
  fold found in Hf. rewrite Hf.
  destruct record as [r|]; simpl.
  - destruct (Qltb 0 (Row.price r)) eqn:E; simpl.
    + split; [apply str_or_nonempty; discriminate|]. left.
      split; [reflexivity|]. exists r. apply Qltb_lt in E. auto.
    + split; [discriminate|]. right. split; [reflexivity|].
      split; [reflexivity|]. right. exists r. apply Qltb_ge in E. auto.
  - split; [discriminate|]. right. auto.
Qed.

Lemma predict_response_fields_witness :
  exists resp,
    predict rice_rows no_randomness june_2025
      (Req.mk "Karnataka" None None "Rice" "2025-08") = Return resp /\
    Resp.crop resp = "Rice" /\ Resp.unit resp <> "".
Proof.
  eexists. split; [reflexivity|].
  pose proof (predict_response_fields rice_rows no_randomness june_2025
                (Req.mk "Karnataka" None None "Rice" "2025-08") _ eq_refl)
    as ((_ & _ & _ & Hc & _) & Hu & _).
  split; [exact Hc | exact Hu].
Defined.

Lemma round_half_even_le (n : Z) (q : Q) :
  q <= inject_Z n -> (round_half_even q <= n)%Z.
Proof.
  intros H. destruct (Qlt_le_dec q (inject_Z n)) as [Hlt|Hge].
  - pose proof (Qfloor_le q) as Hf. pose proof (round_half_even_floor q) as Hr.
    assert (Hz : (Qfloor q < n)%Z).
    { rewrite Zlt_Qlt. eapply Qle_lt_trans; eauto. }
    lia.
  - rewrite (round_half_even_comp q (inject_Z n)) by (apply Qle_antisym; assumption).
    rewrite round_half_even_Z. lia.
Qed.

Lemma round2_le (n : Z) (x : Q) :
  x <= inject_Z n / 100 -> round2 x <= inject_Z n / 100.
Proof.
  intros H. unfold round2.
  assert (Hx : x * 100 <= inject_Z n).
  { assert (E : inject_Z n == inject_Z n / 100 * 100) by field.
    rewrite E. apply Qmult_le_compat_r; [exact H | discriminate]. }
  apply round_half_even_le in Hx.
  apply Qmult_le_r with (z := 100); [reflexivity|].
  assert (E1 : inject_Z (round_half_even (x * 100)) / 100 * 100
               == inject_Z (round_half_even (x * 100))) by field.
  assert (E2 : inject_Z n / 100 * 100 == inject_Z n) by field.
  rewrite E1, E2. rewrite <- Zle_Qle. exact Hx.
Qed.

Lemma base_map_get_le_50 (k : string) (default : Q) :
  default <= 50 -> base_map_get base_map k default <= 50.
Proof.
  intros Hd. unfold base_map. cbn [base_map_get].
  repeat match goal with
         | |- context [String.eqb ?a ?b] => destruct (String.eqb a b)
         end; try exact Hd; discriminate.
Qed.

(** X8: the synthetic current price lies between 10 and 50: it comes from
    the table, whose prices go from 15 to 50, or from the uniform draw over
    [10, 40). *)
Theorem predict_synthetic_price_range (data : list PriceRecord)
  (rnd : RandomSource) (now : datetime) (req : PredictRequest)
  (resp : PredictResponse) :
  0 <= random rnd < 1 ->
  predict data rnd now req = Return resp ->
  Resp.method resp = "synthetic" ->
  10 <= Resp.currentPrice resp <= 50 /\ Resp.unit resp = "kg".
Proof.
  intros Hrnd H Hmeth.
  destruct (predict_Return _ _ _ _ _ H) as (target & record & Hm & Hf & Hresp).
  cbv zeta in Hresp. subst resp. simpl in *.
  destruct (uniform_10_40 rnd Hrnd) as [Hlo Hhi].
  destruct (current_of_cases rnd record (Req.crop req))
    as [(r0 & _ & _ & Hc)|Hc]; rewrite Hc in *; simpl in *; [discriminate|].
  split; [|reflexivity]. split.
  - apply round2_ge_10. apply base_map_get_ge_10. exact Hlo.
  - apply Qle_trans with (inject_Z 5000 / 100); [|discriminate].
    apply round2_le. apply Qle_trans with 50; [|discriminate].
    apply base_map_get_le_50. lra.
Qed.

Lemma predict_synthetic_price_range_witness :
  exists resp,
    predict [] no_randomness june_2025 (rice_request "2025-09") = Return resp /\
    10 <= Resp.currentPrice resp <= 50.
Proof.
  eexists. split; [reflexivity|].
  refine (proj1 (predict_synthetic_price_range [] no_randomness june_2025
                   (rice_request "2025-09") _ _ eq_refl eq_refl)).
  split; [discriminate | reflexivity].
Defined.

(** ** Requests that differ in case *)

Lemma matches_lower_invariant (st st' di di' cr cr' ma ma' : string)
  (r : PriceRecord) :
  PyStr.lower st = PyStr.lower st' -> PyStr.lower di = PyStr.lower di' ->
  PyStr.lower cr = PyStr.lower cr' -> PyStr.lower ma = PyStr.lower ma' ->
  matches st di cr ma r = matches st' di' cr' ma' r.
Proof.
  intros Hs Hd Hc Hm. unfold matches.
  rewrite (truthy_lower _ _ Hs), (truthy_lower _ _ Hd), (truthy_lower _ _ Hm).
  rewrite (eq_lower_comp_r _ _ _ Hs), (eq_lower_comp_r _ _ _ Hd),
    (eq_lower_comp_r _ _ _ Hc), (eq_lower_comp_r _ _ _ Hm).
  reflexivity.
Qed.

Lemma find_recent_price_lower_invariant (data : list PriceRecord)
  (st st' di di' cr cr' ma ma' : string) :
  PyStr.lower st = PyStr.lower st' -> PyStr.lower di = PyStr.lower di' ->
  PyStr.lower cr = PyStr.lower cr' -> PyStr.lower ma = PyStr.lower ma' ->
  find_recent_price data st di cr ma = find_recent_price data st' di' cr' ma'.
Proof.
  intros Hs Hd Hc Hm. rewrite !find_recent_price_candidates.
  unfold candidates_of.
  rewrite (filter_ext _ _ (fun r => matches_lower_invariant st st' di di' cr cr'
                                      ma ma' r Hs Hd Hc Hm)).
  rewrite (filter_ext (fun r => eq_lower (Row.crop r) cr)
             (fun r => eq_lower (Row.crop r) cr')
             (fun r => eq_lower_comp_r _ _ _ Hc)).
  reflexivity.
Qed.

Lemma volatility_lower_invariant (cr cr' : string) :
  PyStr.lower cr = PyStr.lower cr' -> volatility cr = volatility cr'.
Proof. intros H. unfold volatility. rewrite H. reflexivity. Qed.

(** X7: the handler ignores the case of the letters of state, district,
    market and crop: two requests for the same month that differ in case
    only get the same unit, prices and method, or the same error. *)
Theorem predict_case_insensitive (data : list PriceRecord) (rnd : RandomSource)
  (now : datetime) (req req' : PredictRequest) :
  PyStr.lower (Req.state req) = PyStr.lower (Req.state req') ->
  PyStr.lower (opt_or_empty (Req.district req))
    = PyStr.lower (opt_or_empty (Req.district req')) ->
  PyStr.lower (opt_or_empty (Req.market req))
    = PyStr.lower (opt_or_empty (Req.market req')) ->
  PyStr.lower (Req.crop req) = PyStr.lower (Req.crop req') ->
  Req.month req = Req.month req' ->
  same_prices (predict data rnd now req) (predict data rnd now req').
Proof.
  intros Hs Hd Hm Hc Hmo. unfold predict. rewrite <- Hmo.
  destruct (month_to_date (Req.month req)) as [target|e].
  - rewrite (find_recent_price_lower_invariant data _ _ _ _ _ _ _ _ Hs Hd Hc Hm).
    destruct (find_recent_price data (Req.state req') _ _ _) as [record|e];
      cbn [bind]; [|reflexivity].
    unfold simple_predict. rewrite (volatility_lower_invariant _ _ Hc).
    unfold current_of. rewrite Hc.
    destruct record as [r|]; [destruct (Qltb 0 (Row.price r))|];
      simpl; auto.
  - destruct e; reflexivity.
Qed.

Lemma predict_case_insensitive_witness :
  same_prices
    (predict rice_rows no_randomness june_2025
       (Req.mk "Karnataka" (Some "Mysuru") None "Rice" "2025-08"))
    (predict rice_rows no_randomness june_2025
       (Req.mk "KARNATAKA" (Some "mysuru") (Some "") "rICE" "2025-08")).
Proof.
  apply predict_case_insensitive; reflexivity.
Defined.

(** ** The target date and the months ahead *)

Lemma strptime_first_of_month (s : string) (dt : datetime) :
  Strptime.strptime_ymd (s ++ "-01") = Some dt ->
  (day dt = 1 /\ year dt <= 9999)%Z.
Proof.
  intros H.
  assert (Hacc : accepted_month s = true)
    by (rewrite accepted_month_strptime, H; reflexivity).
  destruct s as [|a [|b [|c [|d [|h rest]]]]]; try discriminate Hacc.
  unfold accepted_month in Hacc.
  simpl append in H. unfold Strptime.strptime_ymd, Strptime.regex_match in H.
  rewrite match_Y_cons4 in H.
  destruct (Strptime.digit a) as [x|] eqn:Ea; [|discriminate].
  destruct (Strptime.digit b) as [y|] eqn:Eb; [|discriminate].
  destruct (Strptime.digit c) as [z|] eqn:Ec; [|discriminate].
  destruct (Strptime.digit d) as [w|] eqn:Ed; [|discriminate].
  rewrite !andb_true_iff in Hacc. destruct Hacc as [[_ Hh] Hmt].
  rewrite match_literal_cons, Hh in H.
  assert (Hlen : (String.length rest <= 2)%nat).
  { destruct rest as [|e [|f [|g rest]]]; simpl; try lia. discriminate Hmt. }
  pose proof (match_m_d_month_number rest Hlen) as Hmd.
  destruct (Strptime.match_m_d (rest ++ "-01")) as [[[m dd] r]|]; [|discriminate].
  destruct Hmd as (_ & -> & _ & ->).
  pose proof (digit_range _ _ Ea). pose proof (digit_range _ _ Eb).
  pose proof (digit_range _ _ Ec). pose proof (digit_range _ _ Ed).
  remember (1000 * x + 100 * y + 10 * z + w)%Z as yr eqn:Eyr.
  assert (Hyr : (yr <= 9999)%Z) by lia. clear Eyr.
  destruct (Strptime.valid_date yr m 1); [|discriminate].
  injection H as <-. split; [reflexivity | exact Hyr].
Qed.

(** X10: the date [month_to_date] returns is the first day of a month from
    1 to 12 of a year from 1 to 9999, and its only error is the
    [ValueError] with the message "month must be YYYY-MM". *)
Theorem month_to_date_first_day (ym : string) :
  (forall d, month_to_date ym = Return d ->
             day d = 1 /\ 1 <= month d <= 12 /\ 1 <= year d <= 9999)%Z /\
  (forall e, month_to_date ym = Raise e ->
             e = ValueError "month must be YYYY-MM").
Proof.
  split.
  - intros d H. pose proof (month_to_date_month _ _ H) as Hm.
    unfold month_to_date in H.
    destruct (Strptime.strptime_ymd (ym ++ "-01")) as [dt|] eqn:E; [|discriminate].
    injection H as <-.
    destruct (strptime_first_of_month _ _ E) as [Hd Hy].
    apply strptime_ymd_valid in E. unfold Strptime.valid_date in E.
    rewrite !andb_true_iff, !Z.leb_le in E. lia.
  - intros e H. unfold month_to_date in H.
    destruct (Strptime.strptime_ymd (ym ++ "-01")); [discriminate|].
    injection H as <-. reflexivity.
Qed.

Lemma month_to_date_first_day_witness :
  exists d, month_to_date "2025-7" = Return d /\
            (day d = 1 /\ 1 <= month d <= 12 /\ 1 <= year d <= 9999)%Z.
Proof.
  eexists. split; [reflexivity|].
  apply (proj1 (month_to_date_first_day "2025-7")). reflexivity.
Defined.

(** X9: for a target date and a current date whose months lie between 1
    and 12, the number of months ahead is 0 exactly when the target month
    is the current month or an earlier one, and is otherwise the number of
    calendar months from the current month to the target month. *)
Theorem months_ahead_of_calendar (now target : datetime) :
  (1 <= month now <= 12)%Z -> (1 <= month target <= 12)%Z ->
  (0 <= months_ahead_of now target)%Z /\
  (months_ahead_of now target = 0%Z <->
   (year target < year now \/
    (year target = year now /\ month target <= month now))%Z) /\
  ((year now < year target \/
    (year target = year now /\ month now < month target))%Z ->
   months_ahead_of now target
   = (12 * (year target - year now) + (month target - month now))%Z /\
   (1 <= months_ahead_of now target)%Z).
Proof.
  intros Hn Ht. unfold months_ahead_of.
  destruct (Z.ltb_spec ((year target - year now) * 12 + (month target - month now)) 0);
    repeat split; intros; lia.
Qed.

Lemma months_ahead_of_calendar_witness :
  months_ahead_of june_2025 (mkdatetime 2026 2 1) = 8%Z /\
  months_ahead_of june_2025 (mkdatetime 2024 12 1) = 0%Z.
Proof.
  destruct (months_ahead_of_calendar june_2025 (mkdatetime 2026 2 1))
    as (_ & _ & H1); [simpl; lia | simpl; lia |].
  destruct (months_ahead_of_calendar june_2025 (mkdatetime 2024 12 1))
    as (_ & H2 & _); [simpl; lia | simpl; lia |].
  split.
  - rewrite (proj1 (H1 ltac:(left; simpl; lia))). reflexivity.
  - apply H2. left. simpl. lia.
Defined.

(** ** Stripped fields *)

Lemma rstrip_idem (s : string) : PyStr.rstrip (PyStr.rstrip s) = PyStr.rstrip s.
Proof.
  induction s as [|c s IH]; [reflexivity|].
  simpl. destruct (PyStr.rstrip s) as [|c' r] eqn:E.
  - destruct (PyStr.is_space c) eqn:Ec; [reflexivity|].
    simpl. rewrite Ec. reflexivity.
  - change (PyStr.rstrip (String c (String c' r))) with
      (match PyStr.rstrip (String c' r) with
       | EmptyString =>
           if PyStr.is_space c then EmptyString else String c EmptyString
       | String a0 s0 => String c (String a0 s0)
       end).
    rewrite IH. reflexivity.
Qed.

Lemma lstrip_head (s : string) :
  match PyStr.lstrip s with
  | EmptyString => True
  | String c _ => PyStr.is_space c = false
  end.
Proof.
  induction s as [|c s IH]; simpl; [exact I|].
  destruct (PyStr.is_space c) eqn:E; [exact IH | exact E].
Qed.

Lemma rstrip_head (c : ascii) (s : string) :
  PyStr.is_space c = false ->
  exists t, PyStr.rstrip (String c s) = String c t.
Proof.
  intros Hc. simpl. destruct (PyStr.rstrip s) as [|c' r].
  - rewrite Hc. eauto.
  - eauto.
Qed.

Lemma lstrip_fixed (s : string) :
  match s with
  | EmptyString => True
  | String c _ => PyStr.is_space c = false
  end -> PyStr.lstrip s = s.
Proof.
  destruct s as [|c s]; simpl; [reflexivity|]. intros ->. reflexivity.
Qed.

Lemma strip_idem (s : string) : PyStr.strip (PyStr.strip s) = PyStr.strip s.
Proof.
  unfold PyStr.strip.
  assert (E : PyStr.lstrip (PyStr.rstrip (PyStr.lstrip s))
              = PyStr.rstrip (PyStr.lstrip s)).
  { apply lstrip_fixed. pose proof (lstrip_head s) as Hh.
    destruct (PyStr.lstrip s) as [|c t]; [exact I|].
    destruct (rstrip_head c t Hh) as [t' ->]. exact Hh. }
  rewrite E. apply rstrip_idem.
Qed.

(** ** More on the dataset loader *)

Lemma strip_method_Return (v : option string) (s : string) :
  strip_method v = Return s -> exists s0, s = PyStr.strip s0.
Proof.
  destruct v as [s0|]; simpl; [|discriminate].
  intros H. injection H as <-. eauto.
Qed.

Lemma strip_method_Raise (v : option string) (e : exn) :
  strip_method v = Raise e ->
  e = AttributeError "'NoneType' object has no attribute 'strip'".
Proof.
  destruct v as [s0|]; simpl; [discriminate|].
  intros H. injection H as <-. reflexivity.
Qed.

Lemma load_row_Return (float_of_str : string -> option Q) (row : csv_row)
  (r : PriceRecord) :
  load_row float_of_str row = Return r ->
  exists s1 s2 s3 s4 s5 s6,
    r = Row.mk (PyStr.strip s1) (PyStr.strip s2) (PyStr.strip s3)
          (PyStr.strip s4) (PyStr.strip s5) (row_price float_of_str row)
          (str_or (PyStr.strip s6) "kg").
Proof.
  unfold load_row. intros H. cbv zeta in H.
  destruct (strip_method (dict_get row "state" (Some ""))) as [a1|] eqn:E1;
    cbn [bind] in H; [|discriminate].
  destruct (strip_method (dict_get row "district" (Some ""))) as [a2|] eqn:E2;
    cbn [bind] in H; [|discriminate].
  destruct (strip_method (dict_get row "market" (Some ""))) as [a3|] eqn:E3;
    cbn [bind] in H; [|discriminate].
  destruct (strip_method (dict_get row "crop" (Some ""))) as [a4|] eqn:E4;
    cbn [bind] in H; [|discriminate].
  destruct (strip_method (dict_get row "date" (Some ""))) as [a5|] eqn:E5;
    cbn [bind] in H; [|discriminate].
  destruct (strip_method (dict_get row "unit" (Some "kg"))) as [a6|] eqn:E6;
    cbn [bind] in H; [|discriminate].
  injection H as <-.
  apply strip_method_Return in E1, E2, E3, E4, E5, E6.
  destruct E1 as [s1 ->], E2 as [s2 ->], E3 as [s3 ->], E4 as [s4 ->],
    E5 as [s5 ->], E6 as [s6 ->].
  exists s1, s2, s3, s4, s5, s6. reflexivity.
Qed.

Lemma load_row_Raise (float_of_str : string -> option Q) (row : csv_row)
  (e : exn) :
  load_row float_of_str row = Raise e ->
  e = AttributeError "'NoneType' object has no attribute 'strip'".
Proof.
  unfold load_row. intros H. cbv zeta in H.
  destruct (strip_method (dict_get row "state" (Some ""))) as [a1|] eqn:E1;
    cbn [bind] in H; [|injection H as <-; eapply strip_method_Raise; eauto].
  destruct (strip_method (dict_get row "district" (Some ""))) as [a2|] eqn:E2;
    cbn [bind] in H; [|injection H as <-; eapply strip_method_Raise; eauto].
  destruct (strip_method (dict_get row "market" (Some ""))) as [a3|] eqn:E3;
    cbn [bind] in H; [|injection H as <-; eapply strip_method_Raise; eauto].
  destruct (strip_method (dict_get row "crop" (Some ""))) as [a4|] eqn:E4;
    cbn [bind] in H; [|injection H as <-; eapply strip_method_Raise; eauto].
  destruct (strip_method (dict_get row "date" (Some ""))) as [a5|] eqn:E5;
    cbn [bind] in H; [|injection H as <-; eapply strip_method_Raise; eauto].
  destruct (strip_method (dict_get row "unit" (Some "kg"))) as [a6|] eqn:E6;
    cbn [bind] in H; [|injection H as <-; eapply strip_method_Raise; eauto].
  discriminate H.
Qed.

Lemma load_rows_In (float_of_str : string -> option Q) (rows : list csv_row) :
  forall data out,
    load_rows float_of_str rows data = Return out ->
    forall r, In r out ->
              In r data \/
              exists row, In row rows /\ load_row float_of_str row = Return r.
Proof.
  induction rows as [|row rows IH]; intros data out H r Hr; simpl in H.
  - injection H as <-. auto.
  - destruct (load_row float_of_str row) as [r0|e] eqn:E; cbn [bind] in H;
      [|discriminate].
    destruct (IH _ _ H r Hr) as [Hin|(row' & Hin & Hl)].
    + apply in_app_or in Hin. destruct Hin as [Hin|[<-|[]]]; [auto|].
      right. exists row. split; [left; reflexivity | exact E].
    + right. exists row'. split; [right; exact Hin | exact Hl].
Qed.

Lemma str_or_strip_kg (s : string) :
  PyStr.strip (str_or (PyStr.strip s) "kg") = str_or (PyStr.strip s) "kg".
Proof.
  unfold str_or. destruct (PyStr.truthy (PyStr.strip s)); [apply strip_idem|].
  reflexivity.
Qed.

(** X12: whatever the file holds, every record of a dataset the loader
    returns has its state, district, market, crop, date and unit free of
    leading and trailing whitespace, and a unit that is not empty. *)
Theorem load_mock_data_fields_stripped (float_of_str : string -> option Q)
  (file : option (list (list string))) (data : list PriceRecord)
  (r : PriceRecord) :
  load_mock_data float_of_str file = Return data -> In r data ->
  PyStr.strip (Row.state r) = Row.state r /\
  PyStr.strip (Row.district r) = Row.district r /\
  PyStr.strip (Row.market r) = Row.market r /\
  PyStr.strip (Row.crop r) = Row.crop r /\
  PyStr.strip (Row.date r) = Row.date r /\
  PyStr.strip (Row.unit r) = Row.unit r /\
  Row.unit r <> "".
Proof.
  intros H Hr. destruct file as [lines|]; simpl in H.
  - destruct (load_rows_In _ _ _ _ H r Hr) as [[]|(row & _ & Hl)].
    apply load_row_Return in Hl.
    destruct Hl as (s1 & s2 & s3 & s4 & s5 & s6 & ->).
    cbn [Row.state Row.district Row.market Row.crop Row.date Row.unit].
    rewrite !strip_idem, str_or_strip_kg.
    repeat split. apply str_or_nonempty. discriminate.
  - injection H as <-. destruct Hr.
Qed.

Lemma load_mock_data_fields_stripped_witness :
  exists r,
    load_mock_data (fun _ => Some 30)
      (Some [csv_header;
             ["  Kerala "; "Kochi"; ""; " Rice"; "2025-01-01 "; "30"; "  "]])
    = Return [r] /\
    Row.state r = "Kerala" /\ Row.unit r = "kg" /\
    PyStr.strip (Row.crop r) = Row.crop r.
Proof.
  eexists. split; [reflexivity|]. split; [reflexivity|]. split; [reflexivity|].
  refine (proj1 (proj2 (proj2 (proj2
           (load_mock_data_fields_stripped (fun _ => Some 30)
              (Some [csv_header;
                     ["  Kerala "; "Kochi"; ""; " Rice"; "2025-01-01 "; "30"; "  "]])
              _ _ eq_refl (or_introl eq_refl)))))).
Defined.

(** ** Files with the documented header *)

Lemma record_of_row_seven (float_of_str : string -> option Q)
  (line : list string) :
  List.length line = 7%nat ->
  record_of_row float_of_str (DictReader_row csv_header line)
  = record_of_line float_of_str line.
Proof.
  intros H.
  destruct line as [|s [|d [|m [|c [|dt [|p [|u [|x rest]]]]]]]];
    try discriminate H.
  reflexivity.
Qed.

Lemma filter_nonblank_seven (lines : list (list string)) :
  Forall (fun l => List.length l = 7%nat) lines ->
  filter (fun r => negb (is_blank r)) lines = lines.
Proof.
  induction 1 as [|l lines Hl Hls IH]; simpl; [reflexivity|].
  destruct l; [discriminate Hl|]. simpl. rewrite IH. reflexivity.
Qed.

(** X11: a file with the header state,district,market,crop,date,price,unit
    whose lines all have seven fields loads into one record per line, in the
    order of the file: the text fields trimmed, the price what [float]
    makes of the price field, or 0 when that field is empty or is not a
    number, and the unit "kg" when the unit field is blank. *)
Theorem load_mock_data_seven_fields (float_of_str : string -> option Q)
  (lines : list (list string)) :
  Forall (fun l => List.length l = 7%nat) lines ->
  load_mock_data float_of_str (Some (csv_header :: lines))
  = Return (map (record_of_line float_of_str) lines).
Proof.
  intros H.
  rewrite (proj2 (load_mock_data_tolerant float_of_str)).
  - unfold DictReader. rewrite (filter_nonblank_seven _ H), map_map.
    f_equal. apply map_ext_in. intros l Hl.
    apply record_of_row_seven. rewrite Forall_forall in H. apply H. exact Hl.
  - eapply Forall_impl; [|exact H]. intros l Hl. right. rewrite Hl.
    simpl. lia.
Qed.

Lemma load_mock_data_seven_fields_witness :
  load_mock_data (fun _ => None)
    (Some [csv_header;
           [" Kerala"; "Kochi "; ""; "Rice"; "2025-01-01"; "n/a"; " "];
           ["Assam"; ""; ""; "Tea"; ""; ""; "quintal"]])
  = Return [Row.mk "Kerala" "Kochi" "" "Rice" "2025-01-01" 0 "kg";
            Row.mk "Assam" "" "" "Tea" "" 0 "quintal"].
Proof.
  rewrite load_mock_data_seven_fields; [reflexivity|].
  repeat constructor.
Defined.

Lemma load_row_short (float_of_str : string -> option Q) (line : list string) :
  line <> [] -> (List.length line < 7)%nat ->
  load_row float_of_str (DictReader_row csv_header line)
  = Raise (AttributeError "'NoneType' object has no attribute 'strip'").
Proof.
  intros Hne Hlen.
  destruct line as [|s [|d [|m [|c [|dt [|p [|u rest]]]]]]];
    try congruence; try reflexivity.
  simpl in Hlen. lia.
Qed.

Lemma load_rows_Raise (float_of_str : string -> option Q) (rows : list csv_row) :
  forall data e,
    load_rows float_of_str rows data = Raise e ->
    e = AttributeError "'NoneType' object has no attribute 'strip'" /\
    Exists (fun row => load_row float_of_str row = Raise e) rows.
Proof.
  induction rows as [|row rows IH]; intros data e H; simpl in H; [discriminate|].
  destruct (load_row float_of_str row) as [r|e0] eqn:E; cbn [bind] in H.
  - destruct (IH _ _ H) as [He Hex]. split; [exact He|].
    apply Exists_cons_tl. exact Hex.
  - injection H as <-. split; [eapply load_row_Raise; eauto|].
    apply Exists_cons_hd. exact E.
Qed.

Lemma load_rows_Exists_Raise (float_of_str : string -> option Q)
  (rows : list csv_row) :
  Exists (fun row => exists e, load_row float_of_str row = Raise e) rows ->
  forall data, exists e, load_rows float_of_str rows data = Raise e.
Proof.
  induction rows as [|row rows IH]; intros Hex data.
  - inversion Hex.
  - simpl. destruct (load_row float_of_str row) as [r|e0] eqn:E; cbn [bind].
    + apply IH. inversion Hex as [? ? [e He]|]; subst; [congruence | assumption].
    + eauto.
Qed.

(** ** The walk without noise *)

Lemma py_max_cases (a b : Q) :
  (a < b /\ py_max a b = b) \/ (b <= a /\ py_max a b = a).
Proof.
  unfold py_max. destruct (Qltb a b) eqn:E.
  - left. apply Qltb_lt in E. auto.
  - right. apply Qltb_ge in E. auto.
Qed.

Lemma py_max_comp (a b b' : Q) : b == b' -> py_max a b == py_max a b'.
Proof.
  intros H. unfold py_max.
  rewrite (Qltb_comp a a b b' (Qeq_refl a) H).
  destruct (Qltb a b'); [exact H | reflexivity].
Qed.

Lemma py_max_above (a b : Q) : a <= b -> py_max a b == b.
Proof.
  intros H. destruct (py_max_cases a b) as [[_ ->]|[Hle ->]]; [reflexivity|].
  apply Qle_antisym; assumption.
Qed.

Lemma random_walk_steady (rnd : RandomSource) (vol : Q) :
  (forall k, gauss rnd 0 vol k == 0) ->
  forall steps k p, 1 # 100 <= p -> random_walk rnd vol steps k p == p.
Proof.
  intros Hz. induction steps as [|n IH]; intros k p Hp; simpl; [reflexivity|].
  assert (E : p * (1 + gauss rnd 0 vol k) == p) by (rewrite (Hz k); ring).
  assert (Hm : py_max (1 # 100) (p * (1 + gauss rnd 0 vol k)) == p).
  { rewrite (py_max_comp _ _ _ E). apply py_max_above. exact Hp. }
  rewrite IH by apply py_max_floor. exact Hm.
Qed.

Lemma round_half_even_mono (a b : Q) :
  a <= b -> (round_half_even a <= round_half_even b)%Z.
Proof.
  intros Hab.
  pose proof (Qfloor_resp_le _ _ Hab) as Hf.
  pose proof (round_half_even_floor a) as Ha.
  pose proof (round_half_even_floor b) as Hb.
  destruct (Z.eq_dec (Qfloor a) (Qfloor b)) as [E|E]; [|lia].
  unfold round_half_even in *. rewrite <- E in *.
  set (f := Qfloor a) in *.
  destruct (Qltb (a - inject_Z f) (1 # 2)) eqn:A1.
  - destruct (Qltb (b - inject_Z f) (1 # 2)); [lia|].
    destruct (Qltb (1 # 2) (b - inject_Z f)); [lia|].
    destruct (Z.even f); lia.
  - apply Qltb_ge in A1.
    destruct (Qltb (1 # 2) (a - inject_Z f)) eqn:A2.
    + apply Qltb_lt in A2.
      assert (B1 : Qltb (b - inject_Z f) (1 # 2) = false) by (apply Qltb_ge; lra).
      assert (B2 : Qltb (1 # 2) (b - inject_Z f) = true) by (apply Qltb_lt; lra).
      rewrite B1, B2. lia.
    + assert (B1 : Qltb (b - inject_Z f) (1 # 2) = false) by (apply Qltb_ge; lra).
      rewrite B1.
      destruct (Qltb (1 # 2) (b - inject_Z f)); destruct (Z.even f); lia.
Qed.

Lemma round2_mono (x y : Q) : x <= y -> round2 x <= round2 y.
Proof.
  intros H. unfold round2.
  assert (Hm : (round_half_even (x * 100) <= round_half_even (y * 100))%Z).
  { apply round_half_even_mono. lra. }
  apply Qmult_le_r with (z := 100); [reflexivity|].
  assert (E1 : inject_Z (round_half_even (x * 100)) / 100 * 100
               == inject_Z (round_half_even (x * 100))) by field.
  assert (E2 : inject_Z (round_half_even (y * 100)) / 100 * 100
               == inject_Z (round_half_even (y * 100))) by field.
  rewrite E1, E2. rewrite <- Zle_Qle. exact Hm.
Qed.

(** X13: when every draw of the walk is 0 and the target lies at least one
    month ahead, the prediction is never below the current price, raised
    to 0.01 if it is lower, rounded to two places: without noise the bias
    only adds. *)
Theorem simple_predict_without_noise_floor (rnd : RandomSource) (p : Q) (m : Z)
  (crop : string) :
  (forall k, gauss rnd 0 (volatility crop) k == 0) ->
  (1 <= m)%Z ->
  round2 (py_max (1 # 100) p) <= simple_predict rnd p m crop.
Proof.
  intros Hz Hm. unfold simple_predict. apply round2_mono.
  destruct (Z.to_nat m) as [|n] eqn:En; [lia|]. simpl.
  assert (E : p * (1 + gauss rnd 0 (volatility crop) 0) == p)
    by (rewrite (Hz 0%nat); ring).
  assert (Hw : random_walk rnd (volatility crop) n 1
                 (py_max (1 # 100) (p * (1 + gauss rnd 0 (volatility crop) 0)))
               == py_max (1 # 100) p).
  { rewrite (random_walk_steady rnd (volatility crop) Hz) by apply py_max_floor.
    apply py_max_comp. exact E. }
  apply bias_ge; [lia | |].
  - apply Qle_trans with (1 # 100); [discriminate | apply py_max_floor].
  - rewrite Hw. apply Qle_refl.
Qed.

Lemma simple_predict_without_noise_floor_witness :
  round2 (py_max (1 # 100) (1 # 2)) <= simple_predict no_randomness (1 # 2) 1 "Rice".
Proof.
  apply (simple_predict_without_noise_floor no_randomness (1 # 2) 1 "Rice").
  - intros k. reflexivity.
  - lia.
Defined.

(** ** Reading errors *)

Lemma load_reads_lines (float_of_str : string -> option Q)
  (fieldnames : list string) (rows : list (list string)) :
  forall data,
    load_reads float_of_str fieldnames (map Return rows) data
    = load_rows float_of_str
        (map (DictReader_row fieldnames)
             (filter (fun r => negb (is_blank r)) rows)) data.
Proof.
  induction rows as [|l rows IH]; intros data; simpl; [reflexivity|].
  destruct (is_blank l); simpl; [apply IH|].
  destruct (load_row float_of_str (DictReader_row fieldnames l)); simpl;
    [apply IH | reflexivity].
Qed.

Lemma load_reads_good (float_of_str : string -> option Q)
  (good : list (result (list string))) :
  Forall good_read good ->
  forall rest data,
    exists data',
      load_reads float_of_str csv_header (good ++ rest)%list data
      = load_reads float_of_str csv_header rest data'.
Proof.
  induction 1 as [|rd good (l & -> & Hl) Hgood IH]; intros rest data; simpl.
  - eauto.
  - destruct l as [|x l]; simpl; [apply IH|].
    destruct Hl as [Hl|Hl]; [discriminate Hl|].
    rewrite (load_row_complete float_of_str (DictReader_row csv_header (x :: l)))
      by (apply DictReader_row_complete; exact Hl).
    simpl. apply IH.
Qed.

Lemma first_bad_read (reads : list (result (list string))) :
  Forall good_read reads \/
  exists good bad rest,
    reads = (good ++ bad :: rest)%list /\ Forall good_read good /\
    ((exists e, bad = Raise e) \/
     (exists l, bad = Return l /\ l <> [] /\ (List.length l < 7)%nat)).
Proof.
  induction reads as [|rd reads IH]; [left; constructor|].
  assert (Hrd : good_read rd \/
                (exists e, rd = Raise e) \/
                (exists l, rd = Return l /\ l <> [] /\ (List.length l < 7)%nat)).
  { destruct rd as [l|e]; [|right; left; eauto].
    destruct l as [|x l]; [left; exists []; auto|].
    destruct (Nat.lt_ge_cases (List.length (x :: l)) 7) as [Hlt|Hge].
    - right. right. exists (x :: l). repeat split; [discriminate | exact Hlt].
    - left. exists (x :: l). auto. }
  destruct Hrd as [Hg|Hb].
  - destruct IH as [IH|(good & bad & rest & -> & Hgood & Hbad)].
    + left. constructor; assumption.
    + right. exists (rd :: good), bad, rest. repeat split; auto.
  - right. exists [], rd, reads. repeat split; auto.
Qed.

(** X14: the loader returns the empty dataset for a missing path and for
    an empty file and passes on the exception of [open].  On an open file
    with the header state,district,market,crop,date,price,unit it returns a
    dataset exactly when every read succeeds and every line is blank or has
    at least seven fields; otherwise the first read that fails, or the
    first non-blank line of fewer than seven fields, decides what it raises:
    the exception of the reader, or the [AttributeError] of calling [strip]
    on [None]. *)
Theorem load_mock_data_from_outcomes (float_of_str : string -> option Q) :
  load_mock_data_from float_of_str Missing = Return [] /\
  load_mock_data_from float_of_str (Opened []) = Return [] /\
  (forall e, load_mock_data_from float_of_str (Unreadable e) = Raise e) /\
  (forall e rest,
      load_mock_data_from float_of_str (Opened (Raise e :: rest)) = Raise e) /\
  (forall lines,
      load_mock_data_from float_of_str (Opened (map Return lines))
      = load_mock_data float_of_str (Some lines)) /\
  (forall reads,
      (exists data,
          load_mock_data_from float_of_str (Opened (Return csv_header :: reads))
          = Return data)
      <-> Forall good_read reads) /\
  (forall good e rest,
      Forall good_read good ->
      load_mock_data_from float_of_str
        (Opened (Return csv_header :: good ++ Raise e :: rest)) = Raise e) /\
  (forall good l rest,
      Forall good_read good -> l <> [] -> (List.length l < 7)%nat ->
      load_mock_data_from float_of_str
        (Opened (Return csv_header :: good ++ Return l :: rest))
      = Raise (AttributeError "'NoneType' object has no attribute 'strip'")).
Proof.
  assert (Hreader : forall good e rest,
            Forall good_read good ->
            load_mock_data_from float_of_str
              (Opened (Return csv_header :: good ++ Raise e :: rest)) = Raise e).
  { intros good e rest Hgood. simpl.
    destruct (load_reads_good float_of_str good Hgood (Raise e :: rest) [])
      as [data' ->]. reflexivity. }
  assert (Hshort : forall good l rest,
            Forall good_read good -> l <> [] -> (List.length l < 7)%nat ->
            load_mock_data_from float_of_str
              (Opened (Return csv_header :: good ++ Return l :: rest))
            = Raise (AttributeError "'NoneType' object has no attribute 'strip'")).
  { intros good l rest Hgood Hne Hlen. simpl.
    destruct (load_reads_good float_of_str good Hgood (Return l :: rest) [])
      as [data' ->].
    simpl. destruct l as [|x l]; [congruence|]. simpl is_blank. cbv iota.
    rewrite (load_row_short float_of_str (x :: l) Hne Hlen). reflexivity. }
  repeat split; try reflexivity; auto.
  - intros lines. destruct lines as [|h rows]; [reflexivity|].
    simpl. apply load_reads_lines.
  - intros [data Hd].
    destruct (first_bad_read reads)
      as [Hall|(good & bad & rest & -> & Hgood & [[e ->]|(l & -> & Hne & Hlen)])];
      [exact Hall | |].
    + rewrite (Hreader good e rest Hgood) in Hd. discriminate.
    + rewrite (Hshort good l rest Hgood Hne Hlen) in Hd. discriminate.
  - intros Hall. simpl.
    destruct (load_reads_good float_of_str reads Hall [] []) as [data' Hd].
    rewrite app_nil_r in Hd. rewrite Hd. simpl. eauto.
Qed.

Lemma load_mock_data_from_outcomes_witness :
  load_mock_data_from (fun _ => None)
    (Opened [Return csv_header;
             Return ["Kerala"; "Kochi"; ""; "Rice"; "2025-01-01"; "30"; "kg"];
             Raise (ValueError "'utf-8' codec can't decode byte 0xff");
             Return ["Karnataka"; "Bengaluru"]])
  = Raise (ValueError "'utf-8' codec can't decode byte 0xff").
Proof.
  apply (proj1 (proj2 (proj2 (proj2 (proj2 (proj2 (proj2
           (load_mock_data_from_outcomes (fun _ => None))))))))
           [Return ["Kerala"; "Kochi"; ""; "Rice"; "2025-01-01"; "30"; "kg"]]).
  constructor; [|constructor].
  eexists. split; [reflexivity|]. right. simpl. lia.
Defined.
